(** * Pattern memory store (src/core/MemoryManager.js)

    A shallow embedding of the [MemoryManager] class: the feature encoder
    [_patternToVector], the reference cosine routine
    [_manualCosineSimilarity], and the store operations [storePattern],
    [findSimilar], [getSelfCritique], [getSkills], [getCausalReasoning] and
    [close], followed by the properties the specification states about them.
    The class that owns such a store, [StrategyVerifier]
    (src/core/StrategyVerifier.js), is embedded after it as far as it runs
    without Lean: its metrics, its simulation mode and its audit queries.

    JavaScript numbers are abstracted by the class [JSNumber], so that every
    function is translated once and read at two instances:
    - [float_number]: IEEE 754 binary64, the arithmetic the program runs
      (Rocq's primitive floats; every definition evaluates);
    - [ideal_number]: exact real arithmetic with one extra value [NaN], the
      arithmetic the specification speaks of ("all real numbers"). *)

From Stdlib Require Import String Ascii DecimalString.
From Stdlib Require Import ZArith Bool Lia.
From Stdlib Require Import List Sorted Permutation.
From Stdlib Require Import Reals Lra Psatz.
From Stdlib Require Import Floats.PrimFloat Floats.SpecFloat Floats.FloatOps Floats.FloatAxioms.
Import ListNotations.

Set Implicit Arguments.
#[local] Open Scope string_scope.
#[local] Open Scope list_scope.

(** ** Numbers *)

(** The operations on numbers the source uses.  [undef] is what the value
    [undefined] becomes inside an arithmetic expression (NaN): it is what an
    out-of-range array read contributes. *)
Class JSNumber (num : Type) : Type := {
  lit0 : num;                      (* 0 *)
  lit1 : num;                      (* 1 *)
  lit1000 : num;                   (* 1000 *)
  lit10000 : num;                  (* 10000 *)
  lit100000 : num;                 (* 100000 *)
  lit0_8 : num;                    (* 0.8 *)
  lit50 : num;                     (* 50 *)
  lit100 : num;                    (* 100 *)
  undef : num;                     (* ToNumber(undefined) *)
  add : num -> num -> num;         (* x + y *)
  sub : num -> num -> num;         (* x - y *)
  mul : num -> num -> num;         (* x * y *)
  div : num -> num -> num;         (* x / y *)
  sqrt : num -> num;               (* Math.sqrt(x) *)
  is_zero : num -> bool;           (* x === 0 *)
  gt_zero : num -> bool;           (* x > 0 *)
  truthy : num -> bool;            (* ToBoolean(x): false at 0, -0 and NaN *)
  fround : num -> num              (* the value a Float32Array slot keeps *)
}.

(** *** binary64 *)

(** Rounding to binary32 (24 bits of precision, maximal exponent 128), as
    storing into a [Float32Array] does: the binary64 value is decoded, rounded
    to nearest-even in the binary32 format and read back (every binary32 value
    is a binary64 value). *)
Definition float_fround (x : float) : float :=
  match Prim2SF x with
  | S754_finite s m e =>
      SF2Prim (binary_normalize 24 128 (if s then Zneg m else Zpos m) e s)
  | _ => x
  end.

#[export] Instance float_number : JSNumber float := {|
  lit0 := 0%float;
  lit1 := 1%float;
  lit1000 := 1000%float;
  lit10000 := 10000%float;
  lit100000 := 100000%float;
  lit0_8 := 0x1.999999999999ap-1%float;
  lit50 := 50%float;
  lit100 := 100%float;
  undef := nan;
  add := PrimFloat.add;
  sub := PrimFloat.sub;
  mul := PrimFloat.mul;
  div := PrimFloat.div;
  sqrt := PrimFloat.sqrt;
  is_zero := fun x => PrimFloat.eqb x 0%float;
  gt_zero := fun x => PrimFloat.ltb 0%float x;
  truthy := fun x => negb (PrimFloat.eqb x 0%float) && negb (is_nan x);
  fround := float_fround
|}.

(** *** exact arithmetic *)

(** A real number, or NaN.  There are no infinities and no rounding: a
    division by zero (which the program never performs on these values: the
    encoder divides by constants and the cosine routine guards its divisor)
    and the square root of a negative number give [NaN]; [fround] keeps the
    value. *)
Inductive ideal : Type :=
| NaN : ideal
| Real : R -> ideal.

Definition ideal_lift2 (f : R -> R -> R) (x y : ideal) : ideal :=
  match x, y with
  | Real a, Real b => Real (f a b)
  | _, _ => NaN
  end.

Definition ideal_div (x y : ideal) : ideal :=
  match x, y with
  | Real a, Real b => if Req_dec_T b 0 then NaN else Real (a / b)
  | _, _ => NaN
  end.

Definition ideal_sqrt (x : ideal) : ideal :=
  match x with
  | Real a => if Rlt_dec a 0 then NaN else Real (R_sqrt.sqrt a)
  | NaN => NaN
  end.

Definition ideal_is_zero (x : ideal) : bool :=
  match x with
  | Real a => if Req_dec_T a 0 then true else false
  | NaN => false
  end.

Definition ideal_gt_zero (x : ideal) : bool :=
  match x with
  | Real a => if Rlt_dec 0 a then true else false
  | NaN => false
  end.

#[export] Instance ideal_number : JSNumber ideal := {|
  lit0 := Real 0;
  lit1 := Real 1;
  lit1000 := Real 1000;
  lit10000 := Real 10000;
  lit100000 := Real 100000;
  lit0_8 := Real (8 / 10);
  lit50 := Real 50;
  lit100 := Real 100;
  undef := NaN;
  add := ideal_lift2 Rplus;
  sub := ideal_lift2 Rminus;
  mul := ideal_lift2 Rmult;
  div := ideal_div;
  sqrt := ideal_sqrt;
  is_zero := ideal_is_zero;
  gt_zero := ideal_gt_zero;
  truthy := fun x => negb (ideal_is_zero x) && match x with NaN => false | _ => true end;
  fround := fun x => x
|}.

(** ** Data model *)

(** A pattern record as callers pass it.  [momentum] and [positions] may be
    absent (the encoder defaults them); the other fields are read
    unconditionally. *)
Module Pattern.
Record t (num : Type) : Type := mk {
  price : num;
  volume : num;
  momentum : option num;
  cash : num;
  positions : option num;
  action : string
}.
End Pattern.

(** The entry [storePattern] builds: [{pattern, outcome, timestamp, success,
    action, id}], with [skillId] set afterwards when the skill library
    returned one. *)
Module Entry.
Record t (num : Type) : Type := mk {
  pattern : Pattern.t num;
  outcome : num;
  timestamp : Z;
  success : bool;
  action : string;
  id : nat;
  skillId : option string
}.
End Entry.

(** One element of the sequence [findSimilar] returns. *)
Module Result.
Record t (num : Type) : Type := mk {
  pattern : Pattern.t num;
  outcome : num;
  timestamp : Z;
  success : bool;
  similarity : num
}.
End Result.

(** One element of the sequence [getSkills] returns. *)
Module Skill.
Record t (num : Type) : Type := mk {
  name : string;
  pattern : Pattern.t num
}.
End Skill.

(** The record [getCausalReasoning] returns. *)
Module Reasoning.
Record t : Type := mk {
  action : string;
  causalPaths : list string;
  insight : string
}.
End Reasoning.

(** The record [getSelfCritique] returns. *)
Module Critique.
Record t : Type := mk {
  episodes : list string;
  summary : string
}.
End Critique.

(** ** The optional AgentDB backend

    The [agentdb] package is imported dynamically and is not part of this
    repository.  What the store does with it is modelled by the calls the
    store makes on the database handle and on the four components it holds
    (kept in order in the store's [calls]) and by the answers they give,
    which are arbitrary functions of the calls made so far and of the
    arguments.  A value that AgentDB owns (a skill id, an episode, a causal
    effect) is opaque to the store and carried as a string. *)
Module AgentDB.
Section Backend.
Variable num : Type.

(** The calls the store makes.  The first three are those of
    [storePattern]: the two [JSON.stringify] arguments of [createSkill] and of
    [storeEpisode] are kept as the patterns they serialise, and the critique
    text [`Action ${action} resulted in ${outcome}`] as its two parts.  Then
    come the call of [findSimilar], that of [getSelfCritique] (made with the
    constants 10 and 0.5 after the task type), that of [getCausalReasoning]
    and that of [close]. *)
Inductive call : Type :=
| createSkill (name description : string) (inputs pattern : Pattern.t num)
    (outcome version : num)
| storeEpisode (sessionId task : string) (reward : num) (success : bool)
    (critiqueAction : string) (critiqueOutcome : num)
    (input output : Pattern.t num) (latencyMs tokensUsed : num)
| addCausalEdge (fromId toId : nat) (deltaOutcome confidence weight : num)
| batchSimilarity_call (queryVector : list num) (vectors : list (list num))
| retrieveRelevant_call (taskType : string)
| queryCausalEffects_call (id : nat)
| close_call.

(** The calls that record something in the backend. *)
Definition records (c : call) : bool :=
  match c with
  | createSkill _ _ _ _ _ _ => true
  | storeEpisode _ _ _ _ _ _ _ _ _ _ => true
  | addCausalEdge _ _ _ _ _ => true
  | _ => false
  end.

(** The objects the store holds.  In an answer, [None] stands for a thrown
    exception and an inner [None] for a falsy value (the source reads such
    answers through [x || []]). *)
Record WASMVectorSearch : Type := {
  batchSimilarity : list call -> list num -> list (list num) -> option (list num)
}.

Record ReflexionMemory : Type := {
  retrieveRelevant : list call -> string -> option (option (list string))
}.

Record SkillLibrary : Type := {
  createSkill_returns : list call -> call -> option string
}.

Record CausalMemoryGraph : Type := {
  queryCausalEffects : list call -> nat -> option (option (list string))
}.

(** A database handle: its method [close], when [typeof close] is
    ['function'], as whether a call of it returns ([false]: it throws). *)
Record Database : Type := {
  close_method : option (list call -> bool)
}.

(** The imported module: whether [createDatabase] returns, the handle it
    returns when it does, and what each constructor returns ([None]: it
    throws). *)
Record module : Type := {
  createDatabase : bool;
  database : Database;
  new_WASMVectorSearch : option WASMVectorSearch;
  new_ReflexionMemory : option ReflexionMemory;
  new_SkillLibrary : option SkillLibrary;
  new_CausalMemoryGraph : option CausalMemoryGraph
}.

End Backend.
End AgentDB.

(** ** Arrays *)

Section Arrays.
Context {A : Type}.

(** [a[i] = x] on an array: in range the slot is replaced; beyond the end
    JavaScript extends the array, the new slots in between holding [hole]. *)
Fixpoint assign (hole : A) (i : nat) (x : A) (a : list A) : list A :=
  match i, a with
  | O, [] => [x]
  | O, _ :: t => x :: t
  | S i', [] => hole :: assign hole i' x []
  | S i', h :: t => h :: assign hole i' x t
  end.

(** [a.map((x, idx) => f(x, idx))], the index counted from [start]. *)
Fixpoint mapi_from {B : Type} (start : nat) (f : A -> nat -> B) (a : list A) : list B :=
  match a with
  | [] => []
  | x :: t => f x start :: mapi_from (S start) f t
  end.

Definition mapi {B : Type} (f : A -> nat -> B) (a : list A) : list B :=
  mapi_from 0 f a.

End Arrays.

(** [a.indexOf(s)] on an array of strings: the first index holding [s]
    ([None] for the source's -1). *)
Fixpoint indexOf (a : list string) (s : string) : option nat :=
  match a with
  | [] => None
  | h :: t => if String.eqb h s then Some 0 else option_map S (indexOf t s)
  end.

(** [`${n}`] for a non-negative integer. *)
Definition string_of_nat (n : nat) : string :=
  NilZero.string_of_uint (Nat.to_uint n).

Section Sort.
Context {num : Type} `{JSNumber num} {A : Type}.

(** [Array.prototype.sort(cmp)].  ECMAScript requires the sort to be stable
    and, for a consistent comparator, to place [a] after [b] exactly when
    [cmp(a, b) > 0] (a NaN result counts as 0); the order is otherwise left
    to the implementation.  A stable insertion sort is one such
    implementation, and for a consistent comparator every implementation
    returns the same array. *)
Fixpoint sort_insert (cmp : A -> A -> num) (x : A) (sorted : list A) : list A :=
  match sorted with
  | [] => [x]
  | y :: rest =>
      if gt_zero (cmp x y) then y :: sort_insert cmp x rest else x :: sorted
  end.

Definition sort (cmp : A -> A -> num) (a : list A) : list A :=
  fold_right (sort_insert cmp) [] a.

End Sort.

(** ** The MemoryManager class *)

Section MemoryManager.
Context {num : Type} `{JSNumber num}.

(** The fields of a [MemoryManager] object.  [db] and [handle] are the field
    [this.db]: whether a database handle is held, and the handle.  [calls] is
    not a field of the JavaScript object: it is the history of the external
    database, in the order the store made the calls. *)
Record MemoryManager : Type := mkMemoryManager {
  _initialized : bool;
  db : bool;
  vectorSearch : option (AgentDB.WASMVectorSearch num);
  reflexion : option (AgentDB.ReflexionMemory num);
  skillLibrary : option (AgentDB.SkillLibrary num);
  causalGraph : option (AgentDB.CausalMemoryGraph num);
  patterns : list (Entry.t num);
  vectors : list (list num);
  calls : list (AgentDB.call num);
  handle : option (AgentDB.Database num)
}.

(** The constructor followed by [_initialize]; every operation awaits the
    initialisation before it reads or writes a field, so this is the first
    state an operation sees.  [agentdb] is the outcome of the dynamic import
    ([None]: the import fails).  The constructors are called in the source's
    order; the first one that throws leaves the components assigned before it
    in place and [_initialized] false. *)
Definition _initialize (agentdb : option (AgentDB.module num)) : MemoryManager :=
  let blank := mkMemoryManager false false None None None None [] [] [] None in
  match agentdb with
  | None => blank
  | Some a =>
      if negb (AgentDB.createDatabase a) then blank else
      let d := Some (AgentDB.database a) in
      match AgentDB.new_WASMVectorSearch a with
      | None => mkMemoryManager false true None None None None [] [] [] d
      | Some vs =>
      match AgentDB.new_ReflexionMemory a with
      | None => mkMemoryManager false true (Some vs) None None None [] [] [] d
      | Some rf =>
      match AgentDB.new_SkillLibrary a with
      | None => mkMemoryManager false true (Some vs) (Some rf) None None [] [] [] d
      | Some sl =>
      match AgentDB.new_CausalMemoryGraph a with
      | None => mkMemoryManager false true (Some vs) (Some rf) (Some sl) None [] [] [] d
      | Some cg =>
          mkMemoryManager true true (Some vs) (Some rf) (Some sl) (Some cg) [] [] [] d
      end end end end
  end.

(** [x || 0] on an optional number. *)
Definition or_zero (x : option num) : num :=
  match x with
  | Some v => if truthy v then v else lit0
  | None => lit0
  end.

(** [_patternToVector(pattern)] *)
Definition _patternToVector (pattern : Pattern.t num) : list num :=
  let vector := repeat lit0 128 in
  let vector := assign undef 0 (div (Pattern.price pattern) lit1000) vector in
  let vector := assign undef 1 (div (Pattern.volume pattern) lit10000) vector in
  let vector := assign undef 2 (or_zero (Pattern.momentum pattern)) vector in
  let vector := assign undef 3 (div (Pattern.cash pattern) lit100000) vector in
  let vector := assign undef 4 (or_zero (Pattern.positions pattern)) vector in
  let actions := ["buy"; "sell"; "hold"] in
  match indexOf actions (Pattern.action pattern) with
  | Some actionIdx => assign undef (5 + actionIdx) lit1 vector
  | None => vector
  end.

(** [Float32Array.from(a)] *)
Definition Float32Array_from (a : list num) : list num := map fround a.

(** [a[i]] on a typed array, read as a number. *)
Definition read (a : list num) (i : nat) : num := nth i a undef.

(** The [for] loop of [_manualCosineSimilarity]: the three accumulators
    [(dotProduct, queryMagnitude, vecMagnitude)] after the iterations
    [i = 0 .. queryVector.length - 1]. *)
Definition cosine_loop (queryVector vec : list num) : num * num * num :=
  fold_left
    (fun acc i =>
       let '(dotProduct, queryMagnitude, vecMagnitude) := acc in
       (add dotProduct (mul (read queryVector i) (read vec i)),
        add queryMagnitude (mul (read queryVector i) (read queryVector i)),
        add vecMagnitude (mul (read vec i) (read vec i))))
    (seq 0 (length queryVector))
    (lit0, lit0, lit0).

(** The body of the callback of [_manualCosineSimilarity]. *)
Definition cosine (queryVector vec : list num) : num :=
  let '(dotProduct, queryMagnitude, vecMagnitude) := cosine_loop queryVector vec in
  let queryMagnitude := sqrt queryMagnitude in
  let vecMagnitude := sqrt vecMagnitude in
  if is_zero queryMagnitude || is_zero vecMagnitude then lit0
  else div dotProduct (mul queryMagnitude vecMagnitude).

(** [_manualCosineSimilarity(queryVector, vectors)] *)
Definition _manualCosineSimilarity (queryVector : list num) (vectors : list (list num))
  : list num :=
  map (cosine queryVector) vectors.

(** [storePattern(pattern, outcome)]; [now] is the value [Date.now()] returns.
    The entry pushed on [patterns] is the object whose [skillId] is assigned
    afterwards, so the stored entry carries it. *)
Definition storePattern (now : Z) (pattern : Pattern.t num) (outcome : num)
    (m : MemoryManager) : Entry.t num * MemoryManager :=
  let embedding := _patternToVector pattern in
  let id := length (patterns m) in
  let vectors' := vectors m ++ [Float32Array_from embedding] in
  let '(skillId, calls1) :=
    match _initialized m, skillLibrary m, gt_zero outcome with
    | true, Some lib, true =>
        let c := AgentDB.createSkill
                   (Pattern.action pattern ++ "_" ++ string_of_nat id)%string
                   ("Learned skill for " ++ Pattern.action pattern)%string
                   pattern pattern outcome lit1 in
        (AgentDB.createSkill_returns lib (calls m) c, calls m ++ [c])
    | _, _, _ => (None, calls m)
    end in
  let entry :=
    Entry.mk pattern outcome now (gt_zero outcome) (Pattern.action pattern) id skillId in
  let patterns' := patterns m ++ [entry] in
  let calls2 :=
    match _initialized m, reflexion m with
    | true, Some _ =>
        calls1 ++ [AgentDB.storeEpisode
                     ("session_" ++ string_of_nat id)%string
                     (Pattern.action pattern)
                     (if gt_zero outcome then lit1 else lit0)
                     (gt_zero outcome)
                     (Pattern.action pattern) outcome
                     pattern pattern lit100 lit50]
    | _, _ => calls1
    end in
  let calls3 :=
    match _initialized m, causalGraph m, Nat.ltb 1 (length patterns') with
    | true, Some _, true =>
        match nth_error patterns' (length patterns' - 2) with
        | Some prevPattern =>
            calls2 ++ [AgentDB.addCausalEdge
                         (Entry.id prevPattern)
                         (Entry.id entry)
                         (sub outcome (Entry.outcome prevPattern))
                         lit0_8
                         lit1]
        | None => calls2
        end
    | _, _, _ => calls2
    end in
  (entry,
   mkMemoryManager (_initialized m) (db m) (vectorSearch m) (reflexion m)
     (skillLibrary m) (causalGraph m) patterns' vectors' calls3 (handle m)).

(** The array [results] of [findSimilar], before it is filtered. *)
Definition scored (similarities : list num) (m : MemoryManager) : list (Result.t num) :=
  mapi (fun entry idx =>
          Result.mk (Entry.pattern entry) (Entry.outcome entry)
            (Entry.timestamp entry) (Entry.success entry)
            (read similarities idx))
       (patterns m).

(** The array [similarities] of [findSimilar]. *)
Definition similarities_of (queryVector : list num) (m : MemoryManager) : list num :=
  match _initialized m, vectorSearch m with
  | true, Some vs =>
      match AgentDB.batchSimilarity vs (calls m) queryVector (vectors m) with
      | Some s => s
      | None => _manualCosineSimilarity queryVector (vectors m)
      end
  | _, _ => _manualCosineSimilarity queryVector (vectors m)
  end.

(** The comparator [(a, b) => b.similarity - a.similarity]. *)
Definition by_similarity (a b : Result.t num) : num :=
  sub (Result.similarity b) (Result.similarity a).

(** [findSimilar(currentPattern, k = 5)]; [k = None] is the omitted argument. *)
Definition findSimilar (currentPattern : Pattern.t num) (k : option nat)
    (m : MemoryManager) : list (Result.t num) :=
  let k := match k with Some k => k | None => 5 end in
  let queryVector := Float32Array_from (_patternToVector currentPattern) in
  if Nat.eqb (length (vectors m)) 0 then []
  else
    let similarities := similarities_of queryVector m in
    let results := scored similarities m in
    firstn k (sort by_similarity (filter (fun result => Result.success result) results)).

(** [getSelfCritique(trajectory)]; [retrieveRelevant] is called with the
    constants 10 and 0.5. *)
Definition getSelfCritique (trajectory : list (Pattern.t num)) (m : MemoryManager)
  : Critique.t :=
  let taskType :=
    match trajectory with
    | first :: _ => Pattern.action first
    | [] => "unknown"
    end in
  match _initialized m, reflexion m with
  | true, Some rf =>
      match AgentDB.retrieveRelevant rf (calls m) taskType with
      | Some episodes =>
          let episodes := match episodes with Some e => e | None => [] end in
          Critique.mk episodes
            ("Retrieved " ++ string_of_nat (length episodes)
               ++ " similar episodes for " ++ taskType)%string
      | None => Critique.mk [] ("No episodes found for " ++ taskType)%string
      end
  | _, _ =>
      Critique.mk [] ("No episodes found for " ++ taskType ++ " (AgentDB not initialized)")%string
  end.

(** [getSkills()].  The class body declares [getSkills] twice; the later,
    synchronous declaration replaces the earlier asynchronous one on the
    prototype, so this is the method every caller reaches. *)
Definition getSkills (m : MemoryManager) : list (Skill.t num) :=
  map (fun p => Skill.mk (Pattern.action (Entry.pattern p)) (Entry.pattern p))
      (filter (fun p => Entry.success p) (patterns m)).

(** [getCausalReasoning(action)] *)
Definition getCausalReasoning (action : string) (m : MemoryManager) : Reasoning.t :=
  let patterns := filter (fun p => String.eqb (Entry.action p) action) (patterns m) in
  if Nat.eqb (length patterns) 0 then
    Reasoning.mk action [] "No patterns found for this action"
  else
    match _initialized m, causalGraph m with
    | true, Some cg =>
        match nth_error patterns (length patterns - 1) with
        | Some lastPattern =>
            let id := if Nat.eqb (Entry.id lastPattern) 0 then 0 else Entry.id lastPattern in
            match AgentDB.queryCausalEffects cg (calls m) id with
            | Some effects =>
                let effects := match effects with Some e => e | None => [] end in
                Reasoning.mk action effects
                  ("Found " ++ string_of_nat (length effects)
                     ++ " causal relationships for action: " ++ action)%string
            | None => Reasoning.mk action [] "Error querying causal effects"
            end
        | None => Reasoning.mk action [] "Error querying causal effects"
        end
    | _, _ =>
        Reasoning.mk action [] "Causal reasoning not available (AgentDB not initialized)"
    end.

(** The store after it has made the calls [cs]: no field of the JavaScript
    object changes. *)
Definition log (cs : list (AgentDB.call num)) (m : MemoryManager) : MemoryManager :=
  mkMemoryManager (_initialized m) (db m) (vectorSearch m) (reflexion m)
    (skillLibrary m) (causalGraph m) (patterns m) (vectors m) (calls m ++ cs)
    (handle m).

(** The call [findSimilar(currentPattern)] makes: [batchSimilarity], once the
    store is known to hold a vector, when the store is initialised with a
    vector search; whether the call returns or throws is read in
    [similarities_of]. *)
Definition findSimilar_calls (currentPattern : Pattern.t num) (m : MemoryManager)
  : list (AgentDB.call num) :=
  let queryVector := Float32Array_from (_patternToVector currentPattern) in
  if Nat.eqb (length (vectors m)) 0 then []
  else
    match _initialized m, vectorSearch m with
    | true, Some _ => [AgentDB.batchSimilarity_call queryVector (vectors m)]
    | _, _ => []
    end.

(** The call [getSelfCritique(trajectory)] makes. *)
Definition getSelfCritique_calls (trajectory : list (Pattern.t num)) (m : MemoryManager)
  : list (AgentDB.call num) :=
  let taskType :=
    match trajectory with
    | first :: _ => Pattern.action first
    | [] => "unknown"
    end in
  match _initialized m, reflexion m with
  | true, Some _ => [AgentDB.retrieveRelevant_call num taskType]
  | _, _ => []
  end.

(** The call [getCausalReasoning(action)] makes. *)
Definition getCausalReasoning_calls (action : string) (m : MemoryManager)
  : list (AgentDB.call num) :=
  let patterns := filter (fun p => String.eqb (Entry.action p) action) (patterns m) in
  if Nat.eqb (length patterns) 0 then []
  else
    match _initialized m, causalGraph m with
    | true, Some _ =>
        match nth_error patterns (length patterns - 1) with
        | Some lastPattern =>
            [AgentDB.queryCausalEffects_call num
               (if Nat.eqb (Entry.id lastPattern) 0 then 0 else Entry.id lastPattern)]
        | None => []
        end
    | _, _ => []
    end.

(** [close()]: when a database handle is held and has a method [close], the
    method is called; no field of the store changes.  The boolean tells
    whether [close()] returns: it fails when the handle's method throws. *)
Definition close (m : MemoryManager) : bool * MemoryManager :=
  match db m, handle m with
  | true, Some d =>
      match AgentDB.close_method d with
      | Some closes => (closes (calls m), log [AgentDB.close_call num] m)
      | None => (true, m)
      end
  | _, _ => (true, m)
  end.

(** *** The store as a state machine *)

Inductive Op : Type :=
| StorePattern (now : Z) (pattern : Pattern.t num) (outcome : num)
| FindSimilar (currentPattern : Pattern.t num) (k : option nat)
| GetSelfCritique (trajectory : list (Pattern.t num))
| GetSkills
| GetCausalReasoning (action : string)
| Close.

Inductive Response : Type :=
| Stored (entry : Entry.t num)
| Similar (results : list (Result.t num))
| Critiqued (critique : Critique.t)
| Skills (skills : list (Skill.t num))
| Reasoned (reasoning : Reasoning.t)
| Closed
| CloseFailed.

Definition step (m : MemoryManager) (op : Op) : Response * MemoryManager :=
  match op with
  | StorePattern now pattern outcome =>
      let '(entry, m') := storePattern now pattern outcome m in (Stored entry, m')
  | FindSimilar currentPattern k =>
      (Similar (findSimilar currentPattern k m), log (findSimilar_calls currentPattern m) m)
  | GetSelfCritique trajectory =>
      (Critiqued (getSelfCritique trajectory m), log (getSelfCritique_calls trajectory m) m)
  | GetSkills => (Skills (getSkills m), m)
  | GetCausalReasoning action =>
      (Reasoned (getCausalReasoning action m), log (getCausalReasoning_calls action m) m)
  | Close =>
      let '(returned, m') := close m in ((if returned then Closed else CloseFailed), m')
  end.

(** The store after a sequence of operations on a new object. *)
Definition run (agentdb : option (AgentDB.module num)) (ops : list Op) : MemoryManager :=
  fold_left (fun m op => snd (step m op)) ops (_initialize agentdb).

(** The causal edges the store has asked the backend to record. *)
Definition causal_edges (m : MemoryManager) : list (AgentDB.call num) :=
  filter (fun c => match c with AgentDB.addCausalEdge _ _ _ _ _ => true | _ => false end)
         (calls m).

End MemoryManager.

(** ** Notions the specification uses *)

Section Specification.
Context {num : Type} `{JSNumber num}.

(** [dot(a, b)]: the products of the paired components, summed from the left
    starting at 0. *)
Definition dot (a b : list num) : num :=
  fold_left (fun acc xy => add acc (mul (fst xy) (snd xy))) (combine a b) lit0.

(** [|a|]: the square root of the sum of the squared components. *)
Definition magnitude (a : list num) : num := sqrt (dot a a).

(** The zero vector of dimension [n]. *)
Definition zeroVector (n : nat) : list num := repeat lit0 n.

(** What the arithmetic must grant for a zero vector to have magnitude zero. *)
Class ZeroLaws : Prop := {
  mul_zero_zero : mul lit0 lit0 = lit0;
  add_zero_zero : add lit0 lit0 = lit0;
  sqrt_zero : sqrt lit0 = lit0;
  is_zero_zero : is_zero lit0 = true
}.

(** [ranks_before a b]: sorting by [by_similarity] may leave a result of score
    [a] in front of one of score [b], that is, [b - a > 0] is false. *)
Definition ranks_before (a b : num) : bool := negb (gt_zero (sub b a)).

(** The comparator is consistent on the scores [l]: any two scores are
    comparable and the comparison is transitive.  This is what ECMAScript's
    condition for [sort] to have a defined result amounts to for this
    comparator, a NaN difference being read as 0.  A NaN between two
    different scores breaks the transitivity. *)
Definition consistent (l : list num) : bool :=
  forallb (fun a =>
    forallb (fun b =>
      (ranks_before a b || ranks_before b a)
      && forallb (fun c =>
           implb (ranks_before a b && ranks_before b c) (ranks_before a c)) l) l) l.

(** The order of the answer of [findSimilar] on positions of the store, for
    the scores [s]: position [i] comes before position [j] when its score is
    higher, or when the scores tie and [i] was inserted first. *)
Definition ranked (s : list num) (i j : nat) : Prop :=
  ranks_before (read s i) (read s j) = true
  /\ (ranks_before (read s j) (read s i) = true -> i < j).

(** The result [findSimilar] builds for the entry at position [idx]. *)
Definition result_of (s : list num) (ie : nat * Entry.t num) : Result.t num :=
  Result.mk (Entry.pattern (snd ie)) (Entry.outcome (snd ie))
    (Entry.timestamp (snd ie)) (Entry.success (snd ie)) (read s (fst ie)).

(** The chain of causal edges over the entries [es], the first of which has
    position [start]: one edge from each entry to the next, carrying the
    difference of their outcomes, confidence 0.8 and weight 1. *)
Fixpoint chain_from (start : nat) (es : list (Entry.t num)) : list (AgentDB.call num) :=
  match es with
  | prev :: ((next :: _) as rest) =>
      AgentDB.addCausalEdge start (S start)
        (sub (Entry.outcome next) (Entry.outcome prev)) lit0_8 lit1
      :: chain_from (S start) rest
  | _ => []
  end.

(** The guard of the causal block of [storePattern], apart from the length
    test. *)
Definition causal_backend (m : @MemoryManager num) : bool :=
  _initialized m && match causalGraph m with Some _ => true | None => false end.

(** The scores of [findSimilar] for [queryVector] come from the reference
    routine: the store is not initialised with a vector search, or the call
    of [batchSimilarity] throws. *)
Definition reference_scores (queryVector : list num) (m : @MemoryManager num) : bool :=
  match _initialized m, vectorSearch m with
  | true, Some vs =>
      match AgentDB.batchSimilarity vs (calls m) queryVector (vectors m) with
      | Some _ => false
      | None => true
      end
  | _, _ => true
  end.

(** The one-hot slice of an action over the vocabulary [buy, sell, hold]. *)
Definition one_hot (action : string) : list num :=
  [if String.eqb action "buy" then lit1 else lit0;
   if String.eqb action "sell" then lit1 else lit0;
   if String.eqb action "hold" then lit1 else lit0].

(** An optional field "as-is, defaulting an absent field to 0". *)
Definition present_or_zero (x : option num) : num :=
  match x with Some v => v | None => lit0 end.

(** An optional field holds a number proper: when it is present and [||]
    reads it as false, it is the number 0 (not NaN, nor the negative zero of
    binary64). *)
Definition numeric (x : option num) : Prop :=
  forall v, x = Some v -> truthy v = false -> v = lit0.

(** One iteration of the loop of the cosine routine, on the component [fst xy]
    of the query and the component [snd xy] of the stored vector. *)
Definition accumulate (acc : num * num * num) (xy : num * num) : num * num * num :=
  let '(d, qm, vm) := acc in
  (add d (mul (fst xy) (snd xy)),
   add qm (mul (fst xy) (fst xy)),
   add vm (mul (snd xy) (snd xy))).

(** What every operation of the store preserves: ids are positions, the
    vectors are the encodings of the stored patterns, the derived fields of
    an entry agree with its pattern and outcome, and the edges requested from
    the backend are the chain over the entries. *)
Definition store_invariant (m : @MemoryManager num) : Prop :=
  map (fun e => Entry.id e) (patterns m) = seq 0 (length (patterns m))
  /\ vectors m
     = map (fun e => Float32Array_from (_patternToVector (Entry.pattern e))) (patterns m)
  /\ Forall (fun e => Entry.success e = gt_zero (Entry.outcome e)
                      /\ Entry.action e = Pattern.action (Entry.pattern e))
            (patterns m)
  /\ causal_edges m = if causal_backend m then chain_from 0 (patterns m) else [].

(** The stored entries [findSimilar] keeps after its filter, each with its
    position in the store. *)
Definition candidates (m : @MemoryManager num) : list (nat * Entry.t num) :=
  filter (fun ie => Entry.success (snd ie))
    (combine (seq 0 (length (patterns m))) (patterns m)).

(** Their scores, for the array [s] of similarities. *)
Definition candidate_scores (s : list num) (m : @MemoryManager num) : list num :=
  map (fun ie => read s (fst ie)) (candidates m).

(** The positions [findSimilar] selects for the scores [s], with their
    entries: the sort and the slice on positions instead of results. *)
Definition selected (s : list num) (k : nat) (m : @MemoryManager num)
  : list (nat * Entry.t num) :=
  firstn k
    (sort (fun a b => by_similarity (result_of s a) (result_of s b)) (candidates m)).

End Specification.

(** ** Exact arithmetic: patterns and vectors over the reals *)

Definition real_pattern (p : Pattern.t R) : Pattern.t ideal :=
  Pattern.mk (Real (Pattern.price p)) (Real (Pattern.volume p))
    (option_map Real (Pattern.momentum p)) (Real (Pattern.cash p))
    (option_map Real (Pattern.positions p)) (Pattern.action p).

Definition real_op (op : @Op R) : @Op ideal :=
  match op with
  | StorePattern now pattern outcome =>
      StorePattern now (real_pattern pattern) (Real outcome)
  | FindSimilar currentPattern k => FindSimilar (real_pattern currentPattern) k
  | GetSelfCritique trajectory => GetSelfCritique (map real_pattern trajectory)
  | GetSkills => GetSkills
  | GetCausalReasoning action => GetCausalReasoning action
  | Close => Close
  end.

(** [x || 0] over the reals. *)
Definition real_or_zero (x : option R) : R :=
  match x with Some v => v | None => 0%R end.

(** The encoding the specification describes, over the reals. *)
Definition real_vector (p : Pattern.t R) : list R :=
  [(Pattern.price p / 1000)%R;
   (Pattern.volume p / 10000)%R;
   real_or_zero (Pattern.momentum p);
   (Pattern.cash p / 100000)%R;
   real_or_zero (Pattern.positions p)]
  ++ [if String.eqb (Pattern.action p) "buy" then 1%R else 0%R;
      if String.eqb (Pattern.action p) "sell" then 1%R else 0%R;
      if String.eqb (Pattern.action p) "hold" then 1%R else 0%R]
  ++ repeat 0%R 120.

(** The sum of the products of the paired components, over the reals. *)
Fixpoint real_dot (a b : list R) : R :=
  match a, b with
  | x :: a', y :: b' => (x * y + real_dot a' b')%R
  | _, _ => 0%R
  end.

(** The value of the reference routine on two real vectors of one length. *)
Definition real_cosine (a b : list R) : R :=
  if Req_dec_T (real_dot a a) 0 then 0%R
  else if Req_dec_T (real_dot b b) 0 then 0%R
  else (real_dot a b / (R_sqrt.sqrt (real_dot a a) * R_sqrt.sqrt (real_dot b b)))%R.


(** ** binary64: the inputs of the examples *)

Definition buy_1000 : Pattern.t float :=
  Pattern.mk 1000%float 10000%float None 0%float None "buy".
Definition sell_2000 : Pattern.t float :=
  Pattern.mk 2000%float 10000%float None 0%float None "sell".
Definition buy_500 : Pattern.t float :=
  Pattern.mk 500%float 10000%float None 0%float None "buy".
Definition sell_1500 : Pattern.t float :=
  Pattern.mk 1500%float 25000%float (Some 0.5%float) 50000%float None "sell".

(** A finite price (2^140, about 1.4e42) whose normalised value 2^140 / 1000
    exceeds the largest binary32 number: the [Float32Array] slot holds
    Infinity. *)
Definition buy_huge : Pattern.t float :=
  Pattern.mk 0x1p140%float 10000%float None 0%float None "buy".

Definition three_stored : list (@Op float) :=
  [StorePattern 1%Z buy_1000 10%float;
   StorePattern 2%Z sell_2000 (-5)%float;
   StorePattern 3%Z buy_500 20%float].

Definition overflowing_store : list (@Op float) :=
  [StorePattern 1%Z buy_500 10%float;
   StorePattern 2%Z buy_huge 5%float;
   StorePattern 3%Z buy_1000 20%float].

Unset Implicit Arguments.

(** ** The store and its backend: further notions *)

Section BackendLog.
Context {num : Type} `{JSNumber num}.

(** The [createSkill] call of [storePattern] for the entry [e]. *)
Definition skill_call (e : Entry.t num) : AgentDB.call num :=
  AgentDB.createSkill
    (Pattern.action (Entry.pattern e) ++ "_" ++ string_of_nat (Entry.id e))%string
    ("Learned skill for " ++ Pattern.action (Entry.pattern e))%string
    (Entry.pattern e) (Entry.pattern e) (Entry.outcome e) lit1.

(** Its [storeEpisode] call. *)
Definition episode_call (e : Entry.t num) : AgentDB.call num :=
  AgentDB.storeEpisode
    ("session_" ++ string_of_nat (Entry.id e))%string
    (Pattern.action (Entry.pattern e))
    (if Entry.success e then lit1 else lit0)
    (Entry.success e)
    (Pattern.action (Entry.pattern e)) (Entry.outcome e)
    (Entry.pattern e) (Entry.pattern e) lit100 lit50.

(** Its [addCausalEdge] call, [prev] being the entry stored before it. *)
Definition edge_call (prev e : Entry.t num) : AgentDB.call num :=
  AgentDB.addCausalEdge (Entry.id prev) (Entry.id e)
    (sub (Entry.outcome e) (Entry.outcome prev)) lit0_8 lit1.

Definition present {A : Type} (x : option A) : bool :=
  match x with Some _ => true | None => false end.

(** The calls one entry causes, in the order [storePattern] makes them. *)
Definition entry_calls (m : @MemoryManager num) (prev : option (Entry.t num))
    (e : Entry.t num) : list (AgentDB.call num) :=
  (if _initialized m && present (skillLibrary m) && Entry.success e
   then [skill_call e] else [])
  ++ (if _initialized m && present (reflexion m) then [episode_call e] else [])
  ++ match prev with
     | Some p => if causal_backend m then [edge_call p e] else []
     | None => []
     end.

(** The calls the entries [es] cause, [prev] being the entry before them. *)
Fixpoint backend_log (m : @MemoryManager num) (prev : option (Entry.t num))
    (es : list (Entry.t num)) : list (AgentDB.call num) :=
  match es with
  | [] => []
  | e :: rest => entry_calls m prev e ++ backend_log m (Some e) rest
  end.

(** The arguments of the [storePattern] calls among the operations [ops]. *)
Definition stored_arguments (ops : list (@Op num)) : list (Pattern.t num * num * Z) :=
  flat_map (fun op =>
              match op with
              | StorePattern now pattern outcome => [(pattern, outcome, now)]
              | _ => []
              end) ops.

(** The position of the last entry of [es] whose action is [action], the
    first entry of [es] having position [start]. *)
Fixpoint last_position (action : string) (start : nat) (es : list (Entry.t num))
  : option nat :=
  match es with
  | [] => None
  | e :: rest =>
      match last_position action (S start) rest with
      | Some i => Some i
      | None => if String.eqb (Entry.action e) action then Some start else None
      end
  end.

(** The task type [getSelfCritique] derives from a trajectory. *)
Definition task_type (trajectory : list (Pattern.t num)) : string :=
  match trajectory with
  | first :: _ => Pattern.action first
  | [] => "unknown"
  end.

(** Laws of the arithmetic some properties need. *)
Class MulCommutative : Prop :=
  mul_comm : forall x y : num, mul x y = mul y x.

Class NaNLaws : Prop := {
  add_undef_l : forall x : num, add undef x = undef;
  add_undef_r : forall x : num, add x undef = undef;
  mul_undef_l : forall x : num, mul undef x = undef;
  mul_undef_r : forall x : num, mul x undef = undef;
  div_undef_l : forall x : num, div undef x = undef;
  div_undef_r : forall x : num, div x undef = undef;
  sqrt_undef : sqrt undef = undef;
  is_zero_undef : is_zero undef = false;
  fround_undef : fround undef = undef
}.

Class OneNotZero : Prop :=
  one_not_zero : (lit1 : num) <> lit0.

(** What a result of [findSimilar] keeps of its entry, and the same of the
    entry. *)
Definition result_entry (r : Result.t num) : Pattern.t num * num * Z * bool :=
  (Result.pattern r, Result.outcome r, Result.timestamp r, Result.success r).

Definition entry_kept (e : Entry.t num) : Pattern.t num * num * Z * bool :=
  (Entry.pattern e, Entry.outcome e, Entry.timestamp e, Entry.success e).

End BackendLog.

(** A backend whose database is created and whose first constructor throws:
    the store holds the handle and is not initialised. *)
Definition half_initialized : AgentDB.module float :=
  {| AgentDB.createDatabase := true;
     AgentDB.database := {| AgentDB.close_method := Some (fun _ => true) |};
     AgentDB.new_WASMVectorSearch := None;
     AgentDB.new_ReflexionMemory :=
       Some {| AgentDB.retrieveRelevant := fun _ _ => Some None |};
     AgentDB.new_SkillLibrary :=
       Some {| AgentDB.createSkill_returns := fun _ _ => None |};
     AgentDB.new_CausalMemoryGraph :=
       Some {| AgentDB.queryCausalEffects := fun _ _ => Some None |} |}.

(** A pattern without a price: [pattern.price / 1000] is NaN. *)
Definition no_price : Pattern.t float :=
  Pattern.mk nan 10000%float None 0%float None "buy".

(** ** The StrategyVerifier class (src/core/StrategyVerifier.js)

    The class owns a [MemoryManager] and keeps an audit trail of proofs.  Its
    simulation path, its metrics and its audit queries are embedded here;
    [_verifyWithLean] is not: it hands [storePattern] an object that is not a
    pattern record. *)

(** The further operations on numbers this class uses. *)
Class JSMath (num : Type) : Type := {
  lt : num -> num -> bool;         (* x < y *)
  gt : num -> num -> bool;         (* x > y *)
  le : num -> num -> bool;         (* x <= y *)
  abs : num -> num;                (* Math.abs(x) *)
  min2 : num -> num -> num;        (* Math.min(x, y) *)
  infinity : num;                  (* Infinity, which is Math.min() *)
  of_nat : nat -> num;             (* a count or an array length, as a number *)
  lit0_25 : num;                   (* 0.25 *)
  lit0_02 : num;                   (* 0.02 *)
  lit0_4 : num;                    (* 0.4 *)
  lit0_015 : num                   (* 0.015 *)
}.

(** [Math.min(x, y)] in binary64: NaN when either is NaN, and -0 below +0. *)
Definition float_min2 (x y : float) : float :=
  if is_nan x || is_nan y then nan
  else if PrimFloat.ltb y x then y
  else if PrimFloat.ltb x y then x
  else if get_sign x then x else y.

(** Counts and array lengths are below 2^32, where the conversion is exact. *)
#[export] Instance float_math : JSMath float := {|
  lt := PrimFloat.ltb;
  gt := fun x y => PrimFloat.ltb y x;
  le := PrimFloat.leb;
  abs := PrimFloat.abs;
  min2 := float_min2;
  infinity := PrimFloat.infinity;
  of_nat := fun n => PrimFloat.of_uint63 (Uint63Axioms.of_Z (Z.of_nat n));
  lit0_25 := 0.25%float;
  lit0_02 := 0x1.47ae147ae147bp-6%float;
  lit0_4 := 0x1.999999999999ap-2%float;
  lit0_015 := 0x1.eb851eb851eb8p-7%float
|}.

Set Implicit Arguments.

(** An element of the history [calculateMetrics] reads. *)
Module Trade.
Record t (num : Type) : Type := mk {
  outcome : num
}.
End Trade.

(** [this.rules] *)
Module Rules.
Record t (num : Type) : Type := mk {
  maxDrawdown : num;
  riskPerTrade : num;
  minWinRate : num
}.
End Rules.

(** The object [calculateMetrics] returns. *)
Module Metrics.
Record t (num : Type) : Type := mk {
  winRate : num;
  maxDrawdown : num;
  avgRisk : num;
  totalTrades : nat
}.
End Metrics.

(** The object [_verifyProperty] returns in Lean mode. *)
Module PropertyProof.
Record t (num : Type) : Type := mk {
  valid : bool;
  actual : num;
  expected : num;
  proof : string;
  typeChecked : bool
}.
End PropertyProof.

(** A value of the [proofs] object: a boolean in simulation mode, a
    [PropertyProof] in Lean mode. *)
Inductive proof_value (num : Type) : Type :=
| Plain (holds : bool)
| Checked (proof : PropertyProof.t num).

Arguments Plain {num} holds.

(** The [proofs] object. *)
Module Proofs.
Record t (num : Type) : Type := mk {
  drawdown : proof_value num;
  risk : proof_value num;
  winRate : proof_value num
}.
End Proofs.

(** The theorem of a proof record: the object the simulation builds, the
    number of each hypothesis text kept beside its prefix, or the object Lean
    returned, of which only the name is read. *)
Inductive theorem (num : Type) : Type :=
| Simulated (name : string) (hypothesis : list (string * num)) (conclusion : string)
| FromLean (name : string).

Arguments FromLean {num} name.

(** An element of [this.proofs]. *)
Module ProofRecord.
Record t (num : Type) : Type := mk {
  timestamp : Z;
  theorem : theorem num;
  proofs : Proofs.t num;
  metrics : Metrics.t num;
  signature : option string;
  leanProof : option string;
  verificationTime : num
}.
End ProofRecord.

(** An element of the array [getProofHistory] returns. *)
Module HistoryEntry.
Record t (num : Type) : Type := mk {
  timestamp : Z;
  theorem : string;
  valid : bool;
  metrics : Metrics.t num;
  signature : option string;
  verificationTime : num;
  hasLeanProof : bool
}.
End HistoryEntry.

(** The object [_verifyWithSimulation] returns. *)
Module Verdict.
Record t (num : Type) : Type := mk {
  valid : bool;
  metrics : Metrics.t num;
  proofs : Proofs.t num;
  recommendation : string;
  method : string
}.
End Verdict.

(** What an awaited call on the Lean object does. *)
Inductive answer (A : Type) : Type :=
| Returns (value : A)
| Throws (message : string).

Arguments Throws {A} message.

(** The Lean object, as far as the embedded methods use it:
    [verifySignature(signature)] answers [{valid, publicKey}]. *)
Record Lean : Type := {
  lean_verifySignature : string -> answer (bool * string)
}.

(** What [verifySignature] returns: [{valid: false, error}] or
    [{valid, timestamp, theorem, signer}]. *)
Inductive SignatureCheck : Type :=
| Refused (error : string)
| Verified (valid : bool) (timestamp : Z) (theorem : string) (signer : string).

Unset Implicit Arguments.

Section StrategyVerifier.
Context {num : Type} `{JSNumber num} `{JSMath num}.

(** [Object.values(proofs)] *)
Definition values (p : Proofs.t num) : list (proof_value num) :=
  [Proofs.drawdown p; Proofs.risk p; Proofs.winRate p].

(** [p] read as a condition (an object is true). *)
Definition holds_of (p : proof_value num) : bool :=
  match p with Plain b => b | Checked _ => true end.

(** [p.valid] read as a condition: a boolean has no property [valid]. *)
Definition valid_of (p : proof_value num) : bool :=
  match p with Plain _ => false | Checked q => PropertyProof.valid q end.

(** [theorem.name] *)
Definition theorem_name (t : theorem num) : string :=
  match t with Simulated name _ _ => name | FromLean name => name end.

(** The fields of a [StrategyVerifier] object. *)
Record StrategyVerifier : Type := mkStrategyVerifier {
  rules : Rules.t num;
  lean : option Lean;
  leanAvailable : bool;
  memory : @MemoryManager num;
  proofs : list (ProofRecord.t num)
}.

(** The object the constructor builds, the initialisation of its memory done
    ([_initializeLean] is not awaited and may set [lean] and [leanAvailable]
    at any later time). *)
Definition new_StrategyVerifier (agentdb : option (AgentDB.module num)) : StrategyVerifier :=
  mkStrategyVerifier (Rules.mk lit0_25 lit0_02 lit0_4) None false (_initialize agentdb) [].

(** [Math.min(...xs)].  The elements of [xs] are spread into the arguments
    of one call, and an engine takes only so many: [argument_limit] is the
    number it takes at this call (it depends on the engine and on the stack
    that is left).  Beyond it the call raises a RangeError, which is the
    answer [None]. *)
Definition Math_min (argument_limit : nat) (xs : list num) : option num :=
  if Nat.leb (length xs) argument_limit then Some (fold_left min2 xs infinity)
  else None.

(** [calculateMetrics(data)]; [None] when it throws, which it does when the
    spread call of [Math.min] does. *)
Definition calculateMetrics (argument_limit : nat) (data : list (Trade.t num))
  : option (Metrics.t num) :=
  let wins := length (filter (fun t => gt_zero (Trade.outcome t)) data) in
  let losses := length (filter (fun t => le (Trade.outcome t) lit0) data) in
  match Math_min argument_limit (map (fun t => Trade.outcome t) data) with
  | None => None
  | Some maxLoss =>
      Some (Metrics.mk
              (div (of_nat wins) (add (of_nat wins) (of_nat losses)))
              (abs (div maxLoss lit100000))
              lit0_015
              (length data))
  end.

(** A string read as a condition. *)
Definition nonempty (s : option string) : bool :=
  match s with
  | Some s => negb (String.eqb s "")
  | None => false
  end.

(** [_verifyWithSimulation(strategy, metrics)]; the strategy is not read, and
    [now] is the value of [Date.now()]. *)
Definition _verifyWithSimulation (now : Z) (metrics : Metrics.t num)
    (s : StrategyVerifier) : Verdict.t num * StrategyVerifier :=
  let theorem :=
    Simulated "strategy_safety"
      [("drawdown < ", Rules.maxDrawdown (rules s));
       ("risk_per_trade < ", Rules.riskPerTrade (rules s));
       ("win_rate > ", Rules.minWinRate (rules s))]
      "strategy_is_safe" in
  let proofs' :=
    Proofs.mk
      (Plain (lt (Metrics.maxDrawdown metrics) (Rules.maxDrawdown (rules s))))
      (Plain (lt (Metrics.avgRisk metrics) (Rules.riskPerTrade (rules s))))
      (Plain (gt (Metrics.winRate metrics) (Rules.minWinRate (rules s)))) in
  let record := ProofRecord.mk now theorem proofs' metrics None None lit0 in
  let isValid := forallb holds_of (values proofs') in
  (Verdict.mk isValid metrics proofs' (if isValid then "SAFE" else "RISKY") "simulation",
   mkStrategyVerifier (rules s) (lean s) (leanAvailable s) (memory s)
     (proofs s ++ [record])).

(** [getProofHistory()] *)
Definition getProofHistory (s : StrategyVerifier) : list (HistoryEntry.t num) :=
  map (fun proof =>
         HistoryEntry.mk (ProofRecord.timestamp proof)
           (theorem_name (ProofRecord.theorem proof))
           (forallb valid_of (values (ProofRecord.proofs proof)))
           (ProofRecord.metrics proof) (ProofRecord.signature proof)
           (ProofRecord.verificationTime proof)
           (nonempty (ProofRecord.leanProof proof)))
      (proofs s).

(** [verifySignature(proofIndex)] *)
Definition verifySignature (proofIndex : nat) (s : StrategyVerifier) : SignatureCheck :=
  match nth_error (proofs s) proofIndex with
  | None => Refused "Proof not found"
  | Some proof =>
      match ProofRecord.signature proof with
      | Some signature =>
          if String.eqb signature "" then
            Refused "No signature available (simulation mode)"
          else
            match lean s with
            | None => Refused "Lean not available"
            | Some l =>
                match lean_verifySignature l signature with
                | Returns (valid, publicKey) =>
                    Verified valid (ProofRecord.timestamp proof)
                      (theorem_name (ProofRecord.theorem proof)) publicKey
                | Throws message => Refused message
                end
            end
      | None => Refused "No signature available (simulation mode)"
      end
  end.

(** A series of verifications in simulation mode, each with the value of
    [Date.now()] and the metrics it is given. *)
Definition simulate (verifications : list (Z * Metrics.t num)) (s : StrategyVerifier)
    : StrategyVerifier :=
  fold_left (fun s v => snd (_verifyWithSimulation (fst v) (snd v) s)) verifications s.

(** The audit entry of a verification in simulation mode. *)
Definition simulated_entry (v : Z * Metrics.t num) : HistoryEntry.t num :=
  HistoryEntry.mk (fst v) "strategy_safety" false (snd v) None lit0 false.

End StrategyVerifier.

(** A trade whose outcome is not a number. *)
Definition no_outcome (t : Trade.t float) : bool := is_nan (Trade.outcome t).

(** A history with a trade whose outcome was not recorded. *)
Definition one_lost_record : list (Trade.t float) :=
  [Trade.mk 120%float; Trade.mk nan; Trade.mk (-40)%float].

(** * Properties *)

(** ** The feature encoder *)

Section EncoderFacts.
Context {num : Type} `{JSNumber num}.

(** The whole vector [_patternToVector] returns. *)
Lemma patternToVector_layout (pattern : Pattern.t num) :
  _patternToVector pattern =
    [div (Pattern.price pattern) lit1000;
     div (Pattern.volume pattern) lit10000;
     or_zero (Pattern.momentum pattern);
     div (Pattern.cash pattern) lit100000;
     or_zero (Pattern.positions pattern)]
    ++ one_hot (Pattern.action pattern) ++ repeat lit0 120.
Proof.
  unfold _patternToVector, one_hot. cbn [indexOf].
  rewrite (String.eqb_sym "buy"), (String.eqb_sym "sell"), (String.eqb_sym "hold").
  destruct (String.eqb (Pattern.action pattern) "buy") eqn:Eb.
  - apply String.eqb_eq in Eb. rewrite Eb. reflexivity.
  - destruct (String.eqb (Pattern.action pattern) "sell") eqn:Es.
    + apply String.eqb_eq in Es. rewrite Es. reflexivity.
    + destruct (String.eqb (Pattern.action pattern) "hold") eqn:Eh; reflexivity.
Qed.

Lemma patternToVector_length (pattern : Pattern.t num) :
  length (_patternToVector pattern) = 128.
Proof. rewrite patternToVector_layout. unfold one_hot. reflexivity. Qed.

Lemma or_zero_numeric (x : option num) : numeric x -> or_zero x = present_or_zero x.
Proof.
  intros Hx. destruct x as [v|]; [|reflexivity]. cbn.
  destruct (truthy v) eqn:T; [reflexivity|]. symmetry. now apply Hx.
Qed.

Lemma read_zeros (l : list num) (n i : nat) :
  length l <= i -> i < length l + n -> read (l ++ repeat lit0 n) i = lit0.
Proof.
  intros Hlo Hhi. unfold read. rewrite app_nth2 by exact Hlo.
  apply nth_error_nth. rewrite nth_error_repeat by lia. reflexivity.
Qed.

(** C2.  For every pattern record whose optional fields [momentum] and
    [positions] are numbers proper, [_patternToVector(pattern)] has 128
    elements: dimension 0 is price/1000, dimension 1 volume/10000, dimension
    2 momentum (0 when absent), dimension 3 cash/100000, dimension 4
    positions (0 when absent), dimensions 5..7 the one-hot encoding of the
    action over [buy, sell, hold] (all three 0 for any other action), and
    every dimension from 8 on is 0.  The encoder is a total function of the
    pattern alone.  This holds in every arithmetic, binary64 included. *)
Theorem patternToVector_spec (pattern : Pattern.t num) :
  numeric (Pattern.momentum pattern) ->
  numeric (Pattern.positions pattern) ->
  let vector := _patternToVector pattern in
  length vector = 128
  /\ read vector 0 = div (Pattern.price pattern) lit1000
  /\ read vector 1 = div (Pattern.volume pattern) lit10000
  /\ read vector 2 = present_or_zero (Pattern.momentum pattern)
  /\ read vector 3 = div (Pattern.cash pattern) lit100000
  /\ read vector 4 = present_or_zero (Pattern.positions pattern)
  /\ [read vector 5; read vector 6; read vector 7] = one_hot (Pattern.action pattern)
  /\ (~ In (Pattern.action pattern) ["buy"; "sell"; "hold"] ->
      [read vector 5; read vector 6; read vector 7] = [lit0; lit0; lit0])
  /\ (forall i, 8 <= i -> i < 128 -> read vector i = lit0).
Proof.
  intros Hm Hp. cbn zeta.
  split; [apply patternToVector_length|].
  rewrite patternToVector_layout, (or_zero_numeric _ Hm), (or_zero_numeric _ Hp).
  repeat (split; [reflexivity|]).
  split.
  - intros Hout. unfold one_hot, read. cbn [app nth].
    destruct (String.eqb_spec (Pattern.action pattern) "buy") as [E|_];
      [exfalso; apply Hout; rewrite E; cbn; tauto|].
    destruct (String.eqb_spec (Pattern.action pattern) "sell") as [E|_];
      [exfalso; apply Hout; rewrite E; cbn; tauto|].
    destruct (String.eqb_spec (Pattern.action pattern) "hold") as [E|_];
      [exfalso; apply Hout; rewrite E; cbn; tauto|].
    reflexivity.
  - intros i Hlo Hhi.
    change ([div (Pattern.price pattern) lit1000; div (Pattern.volume pattern) lit10000;
             present_or_zero (Pattern.momentum pattern);
             div (Pattern.cash pattern) lit100000;
             present_or_zero (Pattern.positions pattern)]
            ++ one_hot (Pattern.action pattern) ++ repeat lit0 120)
      with ((div (Pattern.price pattern) lit1000
             :: div (Pattern.volume pattern) lit10000
             :: present_or_zero (Pattern.momentum pattern)
             :: div (Pattern.cash pattern) lit100000
             :: present_or_zero (Pattern.positions pattern)
             :: one_hot (Pattern.action pattern)) ++ repeat lit0 120).
    apply read_zeros; unfold one_hot; cbn [length]; lia.
Qed.

End EncoderFacts.

(** The encoder at a binary64 pattern with a momentum and no positions. *)
Lemma patternToVector_spec_witness :
  numeric (Pattern.momentum sell_1500)
  /\ numeric (Pattern.positions sell_1500)
  /\ length (_patternToVector sell_1500) = 128
  /\ firstn 8 (_patternToVector sell_1500)
     = [1.5; 2.5; 0.5; 0.5; 0; 0; 1; 0]%float.
Proof.
  assert (Hm : numeric (Pattern.momentum sell_1500))
    by (intros v [= <-] Hf; vm_compute in Hf; discriminate).
  assert (Hp : numeric (Pattern.positions sell_1500))
    by (intros v Hv; discriminate).
  split; [exact Hm|]. split; [exact Hp|].
  split; [exact (proj1 (patternToVector_spec sell_1500 Hm Hp))|reflexivity].
Defined.

(** Every real number is a number proper. *)
Lemma numeric_real (x : option R) : numeric (option_map Real x).
Proof.
  intros v Hv Hf. destruct x as [r|]; [|discriminate].
  injection Hv as <-. cbn [truthy ideal_number ideal_is_zero] in Hf.
  destruct (Req_dec_T r 0) as [->|_]; [reflexivity|discriminate].
Qed.

(** ** The reference cosine routine *)

Section CosineFacts.
Context {num : Type} `{JSNumber num}.

Lemma read_middle (pre : list num) (x : num) (post : list num) :
  read (pre ++ x :: post) (length pre) = x.
Proof. unfold read. apply nth_middle. Qed.

(** The indexed loop, started at any offset, is a fold over the paired
    components. *)
Lemma loop_from_offset (q v : list num) :
  length q = length v ->
  forall (pq pv : list num) (acc : num * num * num),
    length pq = length pv ->
    fold_left
      (fun acc i =>
         let '(d, qm, vm) := acc in
         (add d (mul (read (pq ++ q) i) (read (pv ++ v) i)),
          add qm (mul (read (pq ++ q) i) (read (pq ++ q) i)),
          add vm (mul (read (pv ++ v) i) (read (pv ++ v) i))))
      (seq (length pq) (length q)) acc
    = fold_left accumulate (combine q v) acc.
Proof.
  revert v. induction q as [|x q IH]; intros [|y v] Hlen pq pv acc Hpre;
    try discriminate; [reflexivity|].
  cbn [length seq fold_left combine].
  destruct acc as [[d qm] vm].
  rewrite read_middle, Hpre, read_middle.
  specialize (IH v (f_equal pred Hlen) (pq ++ [x]) (pv ++ [y])).
  rewrite <- !app_assoc in IH. cbn [app] in IH.
  rewrite !length_app in IH. cbn [length] in IH.
  rewrite !Nat.add_1_r in IH. rewrite <- Hpre.
  rewrite IH by (rewrite Hpre; reflexivity).
  reflexivity.
Qed.

(** The three accumulators are three independent sums. *)
Lemma accumulate_split (q v : list num) :
  length q = length v ->
  forall d qm vm,
    fold_left accumulate (combine q v) (d, qm, vm)
    = (fold_left (fun acc xy => add acc (mul (fst xy) (snd xy))) (combine q v) d,
       fold_left (fun acc xy => add acc (mul (fst xy) (snd xy))) (combine q q) qm,
       fold_left (fun acc xy => add acc (mul (fst xy) (snd xy))) (combine v v) vm).
Proof.
  revert v. induction q as [|x q IH]; intros [|y v] Hlen d qm vm;
    try discriminate; [reflexivity|].
  cbn [combine fold_left accumulate fst snd].
  apply IH. now injection Hlen.
Qed.

Lemma cosine_loop_dot (q v : list num) :
  length q = length v ->
  cosine_loop q v = (dot q v, dot q q, dot v v).
Proof.
  intros Hlen. unfold cosine_loop.
  rewrite (loop_from_offset q v Hlen [] [] (lit0, lit0, lit0) eq_refl).
  apply accumulate_split, Hlen.
Qed.

Lemma cosine_unfold (q v : list num) :
  length q = length v ->
  cosine q v =
    if is_zero (magnitude q) || is_zero (magnitude v) then lit0
    else div (dot q v) (mul (magnitude q) (magnitude v)).
Proof.
  intros Hlen. unfold cosine. rewrite (cosine_loop_dot q v Hlen). reflexivity.
Qed.

Lemma dot_zeroVector `{!ZeroLaws} (n : nat) :
  dot (zeroVector n) (zeroVector n) = lit0.
Proof.
  unfold dot, zeroVector.
  induction n as [|n IH]; [reflexivity|].
  cbn [repeat combine fold_left fst snd].
  rewrite mul_zero_zero, add_zero_zero. exact IH.
Qed.

Lemma magnitude_zeroVector `{!ZeroLaws} (n : nat) :
  is_zero (magnitude (zeroVector n)) = true.
Proof.
  unfold magnitude. rewrite dot_zeroVector, sqrt_zero. apply is_zero_zero.
Qed.

(** C6.  For two vectors [a] and [b] of one length, the similarity the
    reference routine computes is [dot(a,b) / (|a| * |b|)] when both
    magnitudes are non-zero and exactly 0 when either magnitude is zero; in
    particular the similarity of any vector with the zero vector is 0, on
    either side.  This holds in every arithmetic in which 0 * 0, 0 + 0 and
    the square root of 0 are 0, binary64 included. *)
Theorem cosine_definition `{!ZeroLaws} (a b : list num) :
  length a = length b ->
  (is_zero (magnitude a) = false -> is_zero (magnitude b) = false ->
   cosine a b = div (dot a b) (mul (magnitude a) (magnitude b)))
  /\ (is_zero (magnitude a) = true \/ is_zero (magnitude b) = true ->
      cosine a b = lit0)
  /\ cosine a (zeroVector (length a)) = lit0
  /\ cosine (zeroVector (length a)) a = lit0
  /\ _manualCosineSimilarity a [b] = [cosine a b].
Proof.
  intros Hlen. split; [|split; [|split; [|split]]].
  - intros Ha Hb. rewrite (cosine_unfold a b Hlen), Ha, Hb. reflexivity.
  - intros [Ha|Hb]; rewrite (cosine_unfold a b Hlen).
    + rewrite Ha. reflexivity.
    + rewrite Hb, orb_true_r. reflexivity.
  - rewrite cosine_unfold by (unfold zeroVector; now rewrite repeat_length).
    rewrite magnitude_zeroVector, orb_true_r. reflexivity.
  - rewrite cosine_unfold by (unfold zeroVector; now rewrite repeat_length).
    rewrite magnitude_zeroVector. reflexivity.
  - reflexivity.
Qed.

End CosineFacts.

#[export] Instance float_zero_laws : @ZeroLaws float float_number.
Proof. split; reflexivity. Qed.

#[export] Instance ideal_zero_laws : @ZeroLaws ideal ideal_number.
Proof.
  split; cbn [mul add sqrt is_zero lit0 ideal_number ideal_lift2 ideal_sqrt ideal_is_zero].
  - f_equal. lra.
  - f_equal. lra.
  - destruct (Rlt_dec 0 0); [lra|]. now rewrite sqrt_0.
  - destruct (Req_dec_T 0 0); [reflexivity|contradiction].
Qed.

(** The routine in binary64 on [3, 4] and [4, 3] (24/25), and on [3, 4] and
    the zero vector. *)
Lemma cosine_definition_witness :
  length [3; 4]%float = length [4; 3]%float
  /\ cosine [3; 4]%float [4; 3]%float = 0x1.eb851eb851eb8p-1%float
  /\ cosine [3; 4]%float (zeroVector 2) = 0%float.
Proof.
  split; [reflexivity|].
  destruct (@cosine_definition float float_number float_zero_laws
              [3; 4]%float [4; 3]%float eq_refl) as (Hdef & _ & Hzero & _).
  split.
  - rewrite Hdef by reflexivity. reflexivity.
  - exact Hzero.
Defined.

(** ** The store *)

Section StoreFacts.
Context {num : Type} `{JSNumber num}.

(** What one call of [storePattern] does to the fields of the store. *)
Lemma storePattern_fields (now : Z) (pattern : Pattern.t num) (outcome : num)
    (m : MemoryManager) :
  let entry := fst (storePattern now pattern outcome m) in
  let m' := snd (storePattern now pattern outcome m) in
  Entry.pattern entry = pattern
  /\ Entry.outcome entry = outcome
  /\ Entry.timestamp entry = now
  /\ Entry.success entry = gt_zero outcome
  /\ Entry.action entry = Pattern.action pattern
  /\ Entry.id entry = length (patterns m)
  /\ patterns m' = patterns m ++ [entry]
  /\ vectors m' = vectors m ++ [Float32Array_from (_patternToVector pattern)]
  /\ _initialized m' = _initialized m
  /\ vectorSearch m' = vectorSearch m
  /\ causalGraph m' = causalGraph m.
Proof.
  unfold storePattern.
  destruct (_initialized m), (skillLibrary m), (gt_zero outcome); cbn;
    repeat split; reflexivity.
Qed.

(** The edges one call of [storePattern] requests. *)
Lemma storePattern_edges (now : Z) (pattern : Pattern.t num) (outcome : num)
    (m : MemoryManager) :
  causal_edges (snd (storePattern now pattern outcome m))
  = causal_edges m ++
    if causal_backend m then
      match nth_error (patterns m) (length (patterns m) - 1) with
      | Some prev =>
          if Nat.eqb (length (patterns m)) 0 then []
          else [AgentDB.addCausalEdge (Entry.id prev) (length (patterns m))
                  (sub outcome (Entry.outcome prev)) lit0_8 lit1]
      | None => []
      end
    else [].
Proof.
  unfold storePattern, causal_edges, causal_backend.
  remember (length (patterns m)) as n eqn:En.
  assert (Hlen : forall e : Entry.t num, length (patterns m ++ [e]) = S n)
    by (intros e; rewrite length_app; cbn; lia).
  assert (Hprev : forall e : Entry.t num,
            n <> 0 ->
            nth_error (patterns m ++ [e]) (S n - 2) = nth_error (patterns m) (n - 1)).
  { intros e Hn. rewrite nth_error_app1 by lia. reflexivity. }
  destruct n as [|k].
  - destruct (_initialized m), (skillLibrary m), (gt_zero outcome),
      (reflexion m), (causalGraph m); cbn -[nth_error Nat.sub];
      rewrite ?Hlen; cbn -[nth_error Nat.sub];
      rewrite ?filter_app; cbn -[nth_error Nat.sub];
      rewrite ?app_nil_r; try reflexivity;
      destruct (nth_error (patterns m) (0 - 1)); cbn; rewrite ?app_nil_r; reflexivity.
  - destruct (_initialized m), (skillLibrary m), (gt_zero outcome),
      (reflexion m), (causalGraph m); cbn -[nth_error Nat.sub];
      rewrite ?Hlen; cbn -[nth_error Nat.sub];
      rewrite ?Hprev by discriminate;
      try destruct (nth_error (patterns m) (S k - 1));
      rewrite ?filter_app; cbn -[nth_error Nat.sub];
      rewrite ?app_nil_r; reflexivity.
Qed.

(** The chain over the entries grows by one edge with each entry but the first. *)
Lemma chain_from_snoc (es : list (Entry.t num)) (next : Entry.t num) :
  forall start,
    chain_from start (es ++ [next])
    = chain_from start es ++
      match nth_error es (length es - 1) with
      | Some prev =>
          if Nat.eqb (length es) 0 then []
          else [AgentDB.addCausalEdge (start + length es - 1) (start + length es)
                  (sub (Entry.outcome next) (Entry.outcome prev)) lit0_8 lit1]
      | None => []
      end.
Proof.
  induction es as [|a [|b es] IH]; intros start.
  - reflexivity.
  - cbn. do 2 f_equal; lia.
  - change (chain_from start ((a :: b :: es) ++ [next]))
      with (AgentDB.addCausalEdge start (S start)
              (sub (Entry.outcome b) (Entry.outcome a)) lit0_8 lit1
            :: chain_from (S start) ((b :: es) ++ [next])).
    rewrite IH.
    change (chain_from start (a :: b :: es))
      with (AgentDB.addCausalEdge start (S start)
              (sub (Entry.outcome b) (Entry.outcome a)) lit0_8 lit1
            :: chain_from (S start) (b :: es)).
    cbn [app]. f_equal. f_equal.
    cbn [length Nat.eqb].
    replace (S (S (length es)) - 1) with (S (S (length es) - 1)) by lia.
    cbn [nth_error].
    destruct (nth_error (b :: es) (S (length es) - 1)); [|reflexivity].
    do 2 f_equal; lia.
Qed.

(** Under the invariant an entry's id is its position. *)
Lemma id_at_position (m : @MemoryManager num) (i : nat) (e : Entry.t num) :
  map (fun e => Entry.id e) (patterns m) = seq 0 (length (patterns m)) ->
  nth_error (patterns m) i = Some e ->
  Entry.id e = i.
Proof.
  intros Hids He.
  assert (Hi : i < length (patterns m))
    by (apply nth_error_Some; rewrite He; discriminate).
  apply (map_nth_error (fun e => Entry.id e)) in He.
  rewrite Hids, nth_error_seq in He.
  destruct (Nat.ltb_spec i (length (patterns m))); [|lia].
  now injection He.
Qed.

(** A new store satisfies the invariant, and every operation keeps it. *)
Lemma initialize_invariant (agentdb : option (AgentDB.module num)) :
  store_invariant (_initialize agentdb).
Proof.
  unfold _initialize.
  destruct agentdb as [a|]; [destruct (AgentDB.createDatabase a),
    (AgentDB.new_WASMVectorSearch a), (AgentDB.new_ReflexionMemory a),
    (AgentDB.new_SkillLibrary a), (AgentDB.new_CausalMemoryGraph a)|];
    repeat split; constructor.
Qed.

(** Logging no call changes nothing. *)
Lemma log_nil (m : @MemoryManager num) : log [] m = m.
Proof. destruct m. unfold log. cbn. now rewrite app_nil_r. Qed.

(** The edges among calls that record nothing. *)
Lemma no_edge_in_queries (cs : list (AgentDB.call num)) :
  forallb (fun c => negb (AgentDB.records c)) cs = true ->
  filter (fun c => match c with AgentDB.addCausalEdge _ _ _ _ _ => true | _ => false end) cs
  = [].
Proof.
  induction cs as [|c cs IH]; [reflexivity|].
  cbn [forallb filter]. intros E. apply andb_prop in E. destruct E as [Ec Ecs].
  destruct c; try discriminate Ec; apply IH, Ecs.
Qed.

(** The calls of the queries and of [close] record nothing. *)
Lemma query_calls_record_nothing (m : @MemoryManager num) :
  (forall currentPattern,
     forallb (fun c => negb (AgentDB.records c)) (findSimilar_calls currentPattern m) = true)
  /\ (forall trajectory,
        forallb (fun c => negb (AgentDB.records c)) (getSelfCritique_calls trajectory m) = true)
  /\ (forall action,
        forallb (fun c => negb (AgentDB.records c)) (getCausalReasoning_calls action m) = true).
Proof.
  split; [|split].
  - intros p. unfold findSimilar_calls.
    destruct (Nat.eqb _ 0), (_initialized m), (vectorSearch m); reflexivity.
  - intros t. unfold getSelfCritique_calls.
    destruct (_initialized m), (reflexion m); reflexivity.
  - intros a. unfold getCausalReasoning_calls.
    destruct (Nat.eqb _ 0), (_initialized m), (causalGraph m); try reflexivity.
    destruct (nth_error _ _); reflexivity.
Qed.

(** Only [storePattern] changes the fields of the store: every other
    operation at most logs calls that record nothing. *)
Lemma step_patterns (m : @MemoryManager num) (op : Op) :
  (exists cs,
     snd (step m op) = log cs m
     /\ forallb (fun c => negb (AgentDB.records c)) cs = true)
  \/ exists now pattern outcome,
       op = StorePattern now pattern outcome
       /\ snd (step m op) = snd (storePattern now pattern outcome m).
Proof.
  destruct (query_calls_record_nothing m) as (Qf & Qs & Qc).
  destruct op; cbn [step snd].
  - right. exists now, pattern, outcome. split; [reflexivity|].
    destruct (storePattern now pattern outcome m). reflexivity.
  - left. eexists. split; [reflexivity|apply Qf].
  - left. eexists. split; [reflexivity|apply Qs].
  - left. exists []. split; [now rewrite log_nil|reflexivity].
  - left. eexists. split; [reflexivity|apply Qc].
  - left. unfold close.
    destruct (db m); [|exists []; split; [now rewrite log_nil|reflexivity]].
    destruct (handle m) as [d|]; [|exists []; split; [now rewrite log_nil|reflexivity]].
    destruct (AgentDB.close_method d);
      [|exists []; split; [now rewrite log_nil|reflexivity]].
    eexists. split; reflexivity.
Qed.

(** Calls that record nothing keep the invariant. *)
Lemma log_invariant (cs : list (AgentDB.call num)) (m : @MemoryManager num) :
  forallb (fun c => negb (AgentDB.records c)) cs = true ->
  store_invariant m -> store_invariant (log cs m).
Proof.
  intros Hcs (Hids & Hvec & Hflags & Hedges).
  split; [exact Hids|split; [exact Hvec|split; [exact Hflags|]]].
  unfold causal_edges, log. cbn [calls].
  rewrite filter_app, (no_edge_in_queries cs Hcs), app_nil_r. exact Hedges.
Qed.

Lemma storePattern_invariant (now : Z) (pattern : Pattern.t num) (outcome : num)
    (m : @MemoryManager num) :
  store_invariant m -> store_invariant (snd (storePattern now pattern outcome m)).
Proof.
  intros (Hids & Hvec & Hflags & Hedges).
  pose proof (storePattern_fields now pattern outcome m) as F. cbn zeta in F.
  destruct F as (Fp & Fo & _ & Fs & Fa & Fi & Fpat & Fvec & Finit & _ & Fcg).
  pose proof (storePattern_edges now pattern outcome m) as E.
  split; [|split; [|split]].
  - rewrite Fpat, map_app, length_app, Hids. cbn [map length].
    rewrite Nat.add_1_r, seq_S, Fi. reflexivity.
  - rewrite Fvec, Fpat, map_app, Hvec. cbn [map]. rewrite Fp. reflexivity.
  - rewrite Fpat. apply Forall_app. split; [exact Hflags|].
    constructor; [|constructor]. rewrite Fs, Fa, Fo, Fp. split; reflexivity.
  - rewrite E. unfold causal_backend in *. rewrite Finit, Fcg, Fpat.
    destruct (_initialized m && match causalGraph m with Some _ => true | None => false end).
    + rewrite chain_from_snoc, Hedges. f_equal.
      destruct (nth_error (patterns m) (length (patterns m) - 1)) as [prev|] eqn:P;
        [|reflexivity].
      destruct (Nat.eqb_spec (length (patterns m)) 0); [reflexivity|].
      rewrite (id_at_position m _ prev Hids P), Fo. cbn [Nat.add]. reflexivity.
    + rewrite Hedges. reflexivity.
Qed.

Lemma step_invariant (m : @MemoryManager num) (op : Op) :
  store_invariant m -> store_invariant (snd (step m op)).
Proof.
  intros Hm. destruct (step_patterns m op) as [(cs & -> & Hcs)|(now & p & o & _ & ->)];
    [apply log_invariant; assumption|apply storePattern_invariant, Hm].
Qed.

Lemma run_invariant (agentdb : option (AgentDB.module num)) (ops : list Op) :
  store_invariant (run agentdb ops).
Proof.
  unfold run. generalize (initialize_invariant agentdb).
  generalize (_initialize agentdb). induction ops as [|op ops IH]; intros m Hm.
  - exact Hm.
  - cbn [fold_left]. apply IH, step_invariant, Hm.
Qed.

(** One more operation is one more step. *)
Lemma run_snoc (agentdb : option (AgentDB.module num)) (ops : list Op) (op : Op) :
  run agentdb (ops ++ [op]) = snd (step (run agentdb ops) op).
Proof. unfold run. rewrite fold_left_app. reflexivity. Qed.

(** C4.  After any sequence of operations, the k-th entry stored (counting
    from 0) has id k: the ids of the stored entries are 0, 1, ..., n-1 in
    order, hence dense, strictly increasing and unique; and every operation
    only appends to the stored entries, so an id is never changed or reused. *)
Theorem ids_dense (agentdb : option (AgentDB.module num)) (ops : list Op) :
  let m := run agentdb ops in
  map (fun e => Entry.id e) (patterns m) = seq 0 (length (patterns m))
  /\ forall op : Op, exists added,
       patterns (run agentdb (ops ++ [op])) = patterns m ++ added.
Proof.
  cbn zeta. split.
  - apply (run_invariant agentdb ops).
  - intros op. rewrite run_snoc.
    destruct (step_patterns (run agentdb ops) op)
      as [(cs & -> & _)|(now & p & o & _ & ->)].
    + exists []. cbn [log patterns]. now rewrite app_nil_r.
    + destruct (storePattern_fields now p o (run agentdb ops))
        as (_ & _ & _ & _ & _ & _ & Fpat & _).
      rewrite Fpat. eexists. reflexivity.
Qed.

(** C5.  After any sequence of operations the store holds as many vectors as
    entries, every vector has 128 dimensions, and the i-th vector is the
    binary32 encoding of the i-th entry's pattern; every operation either
    leaves both lists as they are or appends exactly one element to each, so
    between operations no entry is in one list and missing from the other. *)
Theorem vectors_match_patterns (agentdb : option (AgentDB.module num)) (ops : list Op) :
  let m := run agentdb ops in
  length (vectors m) = length (patterns m)
  /\ Forall (fun vector => length vector = 128) (vectors m)
  /\ vectors m
     = map (fun e => Float32Array_from (_patternToVector (Entry.pattern e))) (patterns m)
  /\ forall op : Op,
       let m' := run agentdb (ops ++ [op]) in
       (patterns m' = patterns m /\ vectors m' = vectors m)
       \/ (exists entry vector,
             patterns m' = patterns m ++ [entry] /\ vectors m' = vectors m ++ [vector]).
Proof.
  cbn zeta. destruct (run_invariant agentdb ops) as (_ & Hvec & _).
  split; [|split; [|split]].
  - rewrite Hvec. apply length_map.
  - rewrite Hvec. apply Forall_map, Forall_forall. intros e _.
    unfold Float32Array_from. rewrite length_map. apply patternToVector_length.
  - exact Hvec.
  - intros op. rewrite run_snoc.
    destruct (step_patterns (run agentdb ops) op)
      as [(cs & -> & _)|(now & p & o & _ & ->)].
    + left. split; reflexivity.
    + right.
      destruct (storePattern_fields now p o (run agentdb ops))
        as (_ & _ & _ & _ & _ & _ & Fpat & Fvec & _).
      rewrite Fpat, Fvec. eexists. eexists. split; reflexivity.
Qed.

(** C9.  After any sequence of operations, [getSkills()] is the list of the
    stored entries whose outcome is strictly positive, in insertion order,
    each mapped to [{name: action, pattern}]. *)
Theorem getSkills_successes (agentdb : option (AgentDB.module num)) (ops : list Op) :
  let m := run agentdb ops in
  getSkills m
  = map (fun e => Skill.mk (Entry.action e) (Entry.pattern e))
        (filter (fun e => gt_zero (Entry.outcome e)) (patterns m)).
Proof.
  cbn zeta. destruct (run_invariant agentdb ops) as (_ & _ & Hflags & _).
  unfold getSkills. induction Hflags as [|e es [Hs Ha] _ IH]; [reflexivity|].
  cbn [filter]. rewrite Hs. destruct (gt_zero (Entry.outcome e)).
  - cbn [map]. rewrite Ha, IH. reflexivity.
  - exact IH.
Qed.

(** C3, amended.  The edges the store asks the backend to record are, after
    any sequence of operations, the chain i -> i+1 over the stored entries
    (delta the difference of the two outcomes, confidence 0.8, weight 1) when
    the backend is initialised with a causal graph, and none otherwise.
    A call of [storePattern] on a store that holds an entry requests exactly
    one edge, from the last entry's id to the new id, under that same
    condition and none without it; no other operation requests an edge. *)
Theorem causal_chain (agentdb : option (AgentDB.module num)) (ops : list Op) :
  let m := run agentdb ops in
  causal_edges m = (if causal_backend m then chain_from 0 (patterns m) else [])
  /\ (forall now pattern outcome,
        causal_edges (snd (storePattern now pattern outcome m))
        = causal_edges m ++
          match causal_backend m, nth_error (patterns m) (length (patterns m) - 1) with
          | true, Some prev =>
              [AgentDB.addCausalEdge (length (patterns m) - 1) (length (patterns m))
                 (sub outcome (Entry.outcome prev)) lit0_8 lit1]
          | _, _ => []
          end)
  /\ (forall op,
        match op with StorePattern _ _ _ => False | _ => True end ->
        causal_edges (snd (step m op)) = causal_edges m).
Proof.
  cbn zeta. destruct (run_invariant agentdb ops) as (Hids & _ & _ & Hedges).
  split; [exact Hedges|split].
  - intros now pattern outcome. rewrite storePattern_edges.
    destruct (causal_backend (run agentdb ops)); [|reflexivity].
    destruct (nth_error (patterns (run agentdb ops))
                (length (patterns (run agentdb ops)) - 1)) as [prev|] eqn:P;
      [|reflexivity].
    rewrite (id_at_position _ _ prev Hids P).
    destruct (Nat.eqb_spec (length (patterns (run agentdb ops))) 0) as [Z|_];
      [|reflexivity].
    apply length_zero_iff_nil in Z. rewrite Z in P. discriminate.
  - intros op Hop.
    destruct (step_patterns (run agentdb ops) op)
      as [(cs & -> & Hcs)|(now & p & o & -> & _)]; [|destruct Hop].
    unfold causal_edges, log. cbn [calls].
    now rewrite filter_app, (no_edge_in_queries cs Hcs), app_nil_r.
Qed.

(** C8.  On a store with no entry, [findSimilar] returns the empty sequence
    for every pattern and every k; for an action that no stored entry has,
    [getCausalReasoning(action)] returns the given action, no causal path and
    the insight "No patterns found for this action".  Both are ordinary
    results of total functions. *)
Theorem queries_on_empty (agentdb : option (AgentDB.module num)) (ops : list Op) :
  let m := run agentdb ops in
  (patterns m = [] -> forall currentPattern k, findSimilar currentPattern k m = [])
  /\ (forall action,
        Forall (fun e => Entry.action e <> action) (patterns m) ->
        getCausalReasoning action m
        = Reasoning.mk action [] "No patterns found for this action").
Proof.
  cbn zeta. split.
  - intros Hempty currentPattern k.
    destruct (run_invariant agentdb ops) as (_ & Hvec & _).
    unfold findSimilar. rewrite Hvec, Hempty. reflexivity.
  - intros action Hnone. unfold getCausalReasoning.
    replace (filter (fun p => String.eqb (Entry.action p) action)
               (patterns (run agentdb ops))) with (@nil (Entry.t num));
      [reflexivity|].
    induction Hnone as [|e es He _ IH]; [reflexivity|].
    cbn [filter]. destruct (String.eqb_spec (Entry.action e) action); [contradiction|].
    exact IH.
Qed.

End StoreFacts.

(** C3, as stated, fails without the backend: a store created when the
    [agentdb] import fails holds one entry, and the next [storePattern]
    requests no edge. *)
Lemma no_edge_without_backend :
  let m := run None [StorePattern 1%Z buy_1000 10%float] in
  length (patterns m) = 1
  /\ causal_edges (snd (storePattern 2%Z sell_2000 (-5)%float m)) = [].
Proof. split; reflexivity. Qed.

(** ** Sorting *)

Section ListFacts.
Context {A B : Type}.

(** [filter] after [map] is [map] after [filter]. *)
Lemma filter_map_commute (f : A -> B) (p : B -> bool) (l : list A) :
  filter p (map f l) = map f (filter (fun x => p (f x)) l).
Proof.
  induction l as [|x l IH]; [reflexivity|].
  cbn [map filter]. destruct (p (f x)); cbn [map]; now rewrite IH.
Qed.

(** The indexed [map] pairs every element with its position. *)
Lemma mapi_from_combine (f : A -> nat -> B) (l : list A) :
  forall start,
    mapi_from start f l
    = map (fun ix => f (snd ix) (fst ix)) (combine (seq start (length l)) l).
Proof.
  induction l as [|x l IH]; intros start; [reflexivity|].
  cbn [mapi_from length seq combine map fst snd]. now rewrite IH.
Qed.

(** Filtering and slicing keep a list sorted. *)
Lemma StronglySorted_filter (R : A -> A -> Prop) (p : A -> bool) (l : list A) :
  StronglySorted R l -> StronglySorted R (filter p l).
Proof.
  induction 1 as [|x l _ IH Hx]; [constructor|].
  cbn [filter]. destruct (p x); [|exact IH].
  constructor; [exact IH|].
  apply Forall_forall. intros y Hy. apply filter_In in Hy.
  rewrite Forall_forall in Hx. now apply Hx.
Qed.

Lemma StronglySorted_firstn (R : A -> A -> Prop) (l : list A) :
  StronglySorted R l -> forall n, StronglySorted R (firstn n l).
Proof.
  induction 1 as [|x l _ IH Hx]; intros [|n]; cbn [firstn]; try constructor.
  - apply IH.
  - apply Forall_forall. intros y Hy.
    rewrite Forall_forall in Hx. apply Hx.
    rewrite <- (firstn_skipn n l). apply in_or_app. now left.
Qed.

(** The positions paired with a list increase, and each is the position of
    the element it is paired with. *)
Lemma combine_seq_tagged (l : list A) :
  forall start,
    StronglySorted (fun a b : nat * A => fst a < fst b) (combine (seq start (length l)) l)
    /\ Forall (fun ix : nat * A =>
                 start <= fst ix /\ nth_error l (fst ix - start) = Some (snd ix))
              (combine (seq start (length l)) l).
Proof.
  induction l as [|x l IH]; intros start; cbn [length seq combine].
  - split; constructor.
  - destruct (IH (S start)) as [Hs Hf]. split.
    + constructor; [exact Hs|].
      eapply Forall_impl; [|exact Hf]. cbn. intros ix [Hle _]. lia.
    + constructor.
      * cbn. rewrite Nat.sub_diag. split; [lia|reflexivity].
      * eapply Forall_impl; [|exact Hf]. cbn. intros ix [Hle Hnth].
        split; [lia|].
        replace (fst ix - start) with (S (fst ix - S start)) by lia.
        exact Hnth.
Qed.
End ListFacts.

Section SortFacts.
Context {num : Type} `{JSNumber num}.

(** Sorting by a comparator on images commutes with taking images. *)
Lemma sort_insert_map {A B : Type} (f : A -> B) (cmp : B -> B -> num)
    (x : A) (l : list A) :
  map f (sort_insert (fun a b => cmp (f a) (f b)) x l) = sort_insert cmp (f x) (map f l).
Proof.
  induction l as [|y l IH]; [reflexivity|].
  cbn [sort_insert map]. destruct (gt_zero (cmp (f x) (f y))); cbn [map];
    [now rewrite IH|reflexivity].
Qed.

Lemma sort_map {A B : Type} (f : A -> B) (cmp : B -> B -> num) (l : list A) :
  map f (sort (fun a b => cmp (f a) (f b)) l) = sort cmp (map f l).
Proof.
  unfold sort. induction l as [|x l IH]; [reflexivity|].
  cbn [fold_right map]. now rewrite sort_insert_map, IH.
Qed.

(** The sort permutes its argument. *)
Lemma sort_insert_permutation {A : Type} (cmp : A -> A -> num) (x : A) (l : list A) :
  Permutation (x :: l) (sort_insert cmp x l).
Proof.
  induction l as [|y l IH]; [reflexivity|].
  cbn [sort_insert]. destruct (gt_zero (cmp x y)); [|reflexivity].
  rewrite perm_swap. now constructor.
Qed.

Lemma sort_permutation {A : Type} (cmp : A -> A -> num) (l : list A) :
  Permutation l (sort cmp l).
Proof.
  unfold sort. induction l as [|x l IH]; [reflexivity|].
  cbn [fold_right]. rewrite <- sort_insert_permutation. now constructor.
Qed.

(** What [consistent] grants, on the scores of a list. *)
Lemma consistent_total (l : list num) (a b : num) :
  consistent l = true -> In a l -> In b l ->
  ranks_before a b = true \/ ranks_before b a = true.
Proof.
  unfold consistent. rewrite forallb_forall. intros Hc Ha Hb.
  specialize (Hc a Ha). rewrite forallb_forall in Hc. specialize (Hc b Hb).
  apply andb_prop in Hc. destruct Hc as [Hc _]. now apply orb_prop in Hc.
Qed.

Lemma consistent_transitive (l : list num) (a b c : num) :
  consistent l = true -> In a l -> In b l -> In c l ->
  ranks_before a b = true -> ranks_before b c = true -> ranks_before a c = true.
Proof.
  unfold consistent. rewrite forallb_forall. intros Hc Ha Hb Hcl Hab Hbc.
  specialize (Hc a Ha). rewrite forallb_forall in Hc. specialize (Hc b Hb).
  apply andb_prop in Hc. destruct Hc as [_ Hc].
  rewrite forallb_forall in Hc. specialize (Hc c Hcl).
  rewrite Hab, Hbc in Hc. exact Hc.
Qed.

(** Elements [(position, value)], compared by the score [s] gives their
    position, all scores being among [scores], on which the comparator is
    consistent. *)
Section Tagged.
Context {A : Type}.
Variable s : list num.
Variable scores : list num.
Hypothesis scores_consistent : consistent scores = true.

Let key (ix : nat * A) : num := read s (fst ix).
Let cmp (a b : nat * A) : num := sub (key b) (key a).
Let before (a b : nat * A) : Prop := ranked s (fst a) (fst b).

(** Inserting an element whose position is smaller than every position of a
    ranked list gives a ranked list. *)
Lemma sort_insert_sorted (x : nat * A) (l : list (nat * A)) :
  In (key x) scores ->
  Forall (fun y => In (key y) scores) l ->
  Forall (fun y => fst x < fst y) l ->
  StronglySorted before l ->
  StronglySorted before (sort_insert cmp x l).
Proof.
  intros Hx Hl Htags Hs. induction Hs as [|y l Hs IH Hy].
  - repeat constructor.
  - cbn [sort_insert].
    apply Forall_cons_iff in Hl. destruct Hl as [Hyk Hl].
    apply Forall_cons_iff in Htags. destruct Htags as [Hxy Htags].
    destruct (gt_zero (cmp x y)) eqn:G.
    + constructor; [apply IH; assumption|].
      apply (Permutation_Forall (sort_insert_permutation cmp x l)).
      constructor; [|exact Hy].
      assert (Hn : ranks_before (key x) (key y) = false)
        by (unfold ranks_before; fold (cmp x y); now rewrite G).
      split.
      * destruct (consistent_total scores (key x) (key y) scores_consistent Hx Hyk)
          as [C|C]; [congruence|exact C].
      * unfold key in Hn. intros C. congruence.
    + assert (Hr : ranks_before (key x) (key y) = true)
        by (unfold ranks_before; fold (cmp x y); now rewrite G).
      constructor; [constructor; assumption|].
      constructor; [split; [exact Hr|intros _; exact Hxy]|].
      rewrite Forall_forall in *. intros z Hz. split.
      * apply (consistent_transitive scores (key x) (key y) (key z)
                 scores_consistent Hx Hyk (Hl z Hz) Hr).
        apply (Hy z Hz).
      * intros _. apply (Htags z Hz).
Qed.

(** Sorting a list of increasing positions ranks it: scores descend, and
    positions ascend among equal scores. *)
Lemma sort_sorted (l : list (nat * A)) :
  Forall (fun y => In (key y) scores) l ->
  StronglySorted (fun a b => fst a < fst b) l ->
  StronglySorted before (sort cmp l).
Proof.
  intros Hl Hs. unfold sort. induction Hs as [|x l Hs IH Hx].
  - constructor.
  - cbn [fold_right].
    apply Forall_cons_iff in Hl. destruct Hl as [Hxk Hl].
    apply sort_insert_sorted.
    + exact Hxk.
    + apply (Permutation_Forall (sort_permutation cmp l)), Hl.
    + apply (Permutation_Forall (sort_permutation cmp l)), Hx.
    + apply IH, Hl.
Qed.
End Tagged.
End SortFacts.

(** ** findSimilar *)

(** A slice holds elements of the array only. *)
Lemma In_firstn {A : Type} (x : A) (n : nat) (l : list A) :
  In x (firstn n l) -> In x l.
Proof.
  intros Hx. rewrite <- (firstn_skipn n l). apply in_or_app. now left.
Qed.

Section FindSimilarFacts.
Context {num : Type} `{JSNumber num}.

(** The results before the filter, on positions. *)
Lemma scored_tagged (s : list num) (m : @MemoryManager num) :
  scored s m = map (result_of s) (combine (seq 0 (length (patterns m))) (patterns m)).
Proof. unfold scored, mapi. now rewrite mapi_from_combine. Qed.

(** On a store with a vector, [findSimilar] answers with the results of the
    selected positions. *)
Lemma findSimilar_selected (currentPattern : Pattern.t num) (k : option nat)
    (m : @MemoryManager num) :
  vectors m <> [] ->
  findSimilar currentPattern k m
  = map (result_of (similarities_of (Float32Array_from (_patternToVector currentPattern)) m))
      (selected (similarities_of (Float32Array_from (_patternToVector currentPattern)) m)
         (match k with Some k => k | None => 5 end) m).
Proof.
  intros Hne. unfold findSimilar, selected, candidates.
  destruct (vectors m) as [|v vs] eqn:V; [contradiction|]. cbn [length Nat.eqb].
  rewrite scored_tagged, filter_map_commute.
  rewrite <- sort_map, firstn_map. reflexivity.
Qed.

(** Without the backend's vector search, the score at a position is the
    reference similarity of the query and the encoding of the entry there. *)
Lemma reference_scores_at (queryVector : list num) (m : @MemoryManager num) :
  vectors m
  = map (fun e => Float32Array_from (_patternToVector (Entry.pattern e))) (patterns m) ->
  reference_scores queryVector m = true ->
  forall i e,
    nth_error (patterns m) i = Some e ->
    read (similarities_of queryVector m) i
    = cosine queryVector (Float32Array_from (_patternToVector (Entry.pattern e))).
Proof.
  intros Hvec Href i e He.
  assert (Hs : similarities_of queryVector m
               = _manualCosineSimilarity queryVector (vectors m)).
  { unfold similarities_of. unfold reference_scores in Href.
    destruct (_initialized m); [|reflexivity].
    destruct (vectorSearch m) as [vs|]; [|reflexivity].
    destruct (AgentDB.batchSimilarity vs (calls m) queryVector (vectors m));
      [discriminate Href|reflexivity]. }
  rewrite Hs, Hvec. unfold _manualCosineSimilarity, read.
  rewrite map_map.
  apply nth_error_nth.
  now rewrite nth_error_map, He.
Qed.

Lemma fallback_scores (queryVector : list num) (m : @MemoryManager num) :
  vectors m
  = map (fun e => Float32Array_from (_patternToVector (Entry.pattern e))) (patterns m) ->
  _initialized m = false \/ vectorSearch m = None ->
  forall i e,
    nth_error (patterns m) i = Some e ->
    read (similarities_of queryVector m) i
    = cosine queryVector (Float32Array_from (_patternToVector (Entry.pattern e))).
Proof.
  intros Hvec Hfb i e He.
  assert (Hs : similarities_of queryVector m
               = _manualCosineSimilarity queryVector (vectors m)).
  { unfold similarities_of. destruct Hfb as [-> | ->]; [reflexivity|].
    destruct (_initialized m); reflexivity. }
  rewrite Hs, Hvec. unfold _manualCosineSimilarity, read.
  rewrite map_map.
  apply nth_error_nth.
  now rewrite nth_error_map, He.
Qed.

(** C1, amended.  For every store reached by a sequence of operations and
    every query pattern, when the comparator
    [(a, b) => b.similarity - a.similarity] is consistent on the scores of
    the stored entries with a positive outcome (no NaN among them),
    [findSimilar(pattern, k)] returns at most k results (5 when k is
    omitted), each built from a stored entry
    whose outcome is strictly positive and carrying the score of that entry's
    position, ordered by score descending with ties in insertion order.  When
    the backend's vector search is not available the score of an entry is the
    reference cosine similarity of the binary32 query vector and the entry's
    binary32 vector. *)
Theorem findSimilar_ranked (agentdb : option (AgentDB.module num)) (ops : list Op)
    (currentPattern : Pattern.t num) (k : option nat) :
  let m := run agentdb ops in
  let queryVector := Float32Array_from (_patternToVector currentPattern) in
  let s := similarities_of queryVector m in
  consistent (candidate_scores s m) = true ->
  exists found : list (nat * Entry.t num),
    findSimilar currentPattern k m = map (result_of s) found
    /\ length (findSimilar currentPattern k m) <= match k with Some k => k | None => 5 end
    /\ Forall (fun ie => nth_error (patterns m) (fst ie) = Some (snd ie)
                         /\ gt_zero (Entry.outcome (snd ie)) = true) found
    /\ StronglySorted (fun a b => ranked s (fst a) (fst b)) found
    /\ (_initialized m = false \/ vectorSearch m = None ->
        forall i e,
          nth_error (patterns m) i = Some e ->
          read s i
          = cosine queryVector (Float32Array_from (_patternToVector (Entry.pattern e)))).
Proof.
  cbn zeta. intros Hc.
  destruct (run_invariant agentdb ops) as (_ & Hvec & Hflags & _).
  set (m := run agentdb ops) in *.
  set (s := similarities_of (Float32Array_from (_patternToVector currentPattern)) m) in *.
  destruct (combine_seq_tagged (patterns m) 0) as [Htags Hnth].
  destruct (vectors m) as [|v vs] eqn:V.
  - exists []. unfold findSimilar. rewrite V. cbn.
    repeat split; try constructor; try lia.
    apply fallback_scores. now rewrite V.
  - exists (selected s (match k with Some k => k | None => 5 end) m).
    assert (Hfound : findSimilar currentPattern k m
                     = map (result_of s)
                         (selected s (match k with Some k => k | None => 5 end) m))
      by (apply findSimilar_selected; now rewrite V).
    split; [exact Hfound|].
    split; [rewrite Hfound, length_map; unfold selected; apply firstn_le_length|].
    assert (Hin : forall ie,
              In ie (selected s (match k with Some k => k | None => 5 end) m) ->
              In ie (combine (seq 0 (length (patterns m))) (patterns m))
              /\ Entry.success (snd ie) = true).
    { intros ie Hie. unfold selected, candidates in Hie.
      apply In_firstn in Hie.
      apply (Permutation_in _ (Permutation_sym (sort_permutation _ _))) in Hie.
      now apply filter_In in Hie. }
    split; [|split].
    + apply Forall_forall. intros ie Hie. destruct (Hin ie Hie) as [Hc1 Hc2].
      rewrite Forall_forall in Hnth. destruct (Hnth ie Hc1) as [_ He].
      rewrite Nat.sub_0_r in He. split; [exact He|].
      rewrite Forall_forall in Hflags.
      destruct (Hflags (snd ie) (nth_error_In _ _ He)) as [Hsucc _].
      now rewrite <- Hsucc.
    + unfold selected. apply StronglySorted_firstn.
      apply (sort_sorted s (candidate_scores s m) Hc).
      * apply Forall_forall. intros ie Hie.
        apply (in_map (fun ie => read s (fst ie))), Hie.
      * apply StronglySorted_filter, Htags.
    + apply fallback_scores. now rewrite V.
Qed.
End FindSimilarFacts.

(** The theorem at a binary64 store of three entries, the second one a
    failure: the scores are consistent, and the answer is ranked. *)
Lemma findSimilar_ranked_witness :
  let m := run None three_stored in
  let s := similarities_of (Float32Array_from (_patternToVector buy_1000)) m in
  consistent (candidate_scores s m) = true
  /\ exists found,
       findSimilar buy_1000 None m = map (result_of s) found
       /\ StronglySorted (fun a b => ranked s (fst a) (fst b)) found.
Proof.
  cbn zeta.
  assert (Hc : consistent
                 (candidate_scores
                    (similarities_of (Float32Array_from (_patternToVector buy_1000))
                       (run None three_stored))
                    (run None three_stored)) = true)
    by (vm_compute; reflexivity).
  split; [exact Hc|].
  destruct (findSimilar_ranked None three_stored buy_1000 None Hc)
    as (found & Hfound & _ & _ & Hsorted & _).
  exists found. split; assumption.
Defined.

(** C1, as stated, fails in binary64 on finite inputs.  The store holds three
    successful entries; the second has the finite price 2^140, whose
    normalised value overflows binary32, so its stored vector holds Infinity
    and its score is NaN.  Every comparison with it yields NaN, which the
    sort reads as "equal": the three results stay in insertion order (as they
    do in V8, whose run detection takes the array for sorted), and the first
    result has a lower score than the third. *)
Lemma findSimilar_unsorted_on_overflow :
  let m := run None overflowing_store in
  map (fun result => Result.similarity result) (findSimilar buy_1000 None m)
  = [0x1.ecac173f0552fp-1%float; nan; 0x1.0000000000001p+0%float]
  /\ map (fun result => Result.outcome result) (findSimilar buy_1000 None m)
     = [10%float; 5%float; 20%float]
  /\ PrimFloat.ltb 0x1.ecac173f0552fp-1 0x1.0000000000001p+0 = true.
Proof. repeat split; vm_compute; reflexivity. Qed.

(** ** Exact arithmetic *)

Section ExactArithmetic.
#[local] Open Scope R_scope.

(** On real vectors [dot] is [real_dot]. *)
Lemma dot_real_from (a b : list R) :
  forall acc : R,
    fold_left (fun acc xy => add acc (mul (fst xy) (snd xy)))
      (combine (map Real a) (map Real b)) (Real acc)
    = Real (acc + real_dot a b).
Proof.
  revert b. induction a as [|x a IH]; intros [|y b] acc; cbn [map combine fold_left real_dot];
    try (f_equal; lra).
  cbn [fst snd add mul ideal_number ideal_lift2]. rewrite IH. f_equal. lra.
Qed.

Lemma dot_real (a b : list R) : dot (map Real a) (map Real b) = Real (real_dot a b).
Proof.
  unfold dot. change lit0 with (Real 0). rewrite dot_real_from. f_equal. lra.
Qed.

Lemma real_dot_self_nonneg (a : list R) : 0 <= real_dot a a.
Proof. induction a as [|x a IH]; cbn [real_dot]; [lra|nra]. Qed.


(** The Cauchy-Schwarz inequality. *)
Lemma real_dot_cauchy_schwarz (a b : list R) :
  length a = length b ->
  real_dot a b * real_dot a b <= real_dot a a * real_dot b b.
Proof.
  revert b. induction a as [|x a IH]; intros [|y b] Hlen; try discriminate;
    cbn [real_dot]; [lra|].
  specialize (IH b (f_equal pred Hlen)).
  pose proof (real_dot_self_nonneg a) as Ha.
  pose proof (real_dot_self_nonneg b) as Hb.
  set (P := real_dot a b) in *. set (A := real_dot a a) in *.
  set (C := real_dot b b) in *. clearbody P A C.
  assert (Hx2 : 0 <= x * x) by nra.
  assert (Hy2 : 0 <= y * y) by nra.
  assert (HxC : 0 <= x * x * C) by (apply Rmult_le_pos; assumption).
  assert (HAy : 0 <= A * (y * y)) by (apply Rmult_le_pos; assumption).
  assert (Hcross : 2 * (x * y) * P <= x * x * C + A * (y * y)).
  { destruct (Rle_dec (2 * (x * y) * P) 0) as [Hneg|Hpos]; [lra|].
    apply Rnot_le_lt in Hpos.
    apply Rsqr_incr_0_var; [|nra].
    unfold Rsqr.
    assert (Hxy : 0 <= (x * y) * (x * y)) by nra.
    assert (H1 : (2 * (x * y) * P) * (2 * (x * y) * P)
                 <= 4 * ((x * y) * (x * y)) * (A * C)) by nra.
    pose proof (Rle_0_sqr (x * x * C - A * (y * y))) as H2. unfold Rsqr in H2.
    nra. }
  nra.
Qed.

(** The magnitude of a real vector is the square root of its squared norm,
    and it is zero exactly when the squared norm is. *)
Lemma magnitude_real (a : list R) :
  magnitude (map Real a) = Real (R_sqrt.sqrt (real_dot a a)).
Proof.
  unfold magnitude. rewrite dot_real. cbn [sqrt ideal_number ideal_sqrt].
  destruct (Rlt_dec (real_dot a a) 0) as [Hneg|_]; [|reflexivity].
  pose proof (real_dot_self_nonneg a). lra.
Qed.

Lemma is_zero_real (r : R) : is_zero (Real r) = true <-> r = 0.
Proof.
  cbn [is_zero ideal_number ideal_is_zero].
  destruct (Req_dec_T r 0); split; intros; congruence.
Qed.

(** On real vectors of one length the routine computes [real_cosine]. *)
Lemma cosine_real (a b : list R) :
  length a = length b ->
  cosine (map Real a) (map Real b) = Real (real_cosine a b).
Proof.
  intros Hlen.
  rewrite cosine_unfold by (now rewrite !length_map).
  rewrite !magnitude_real, dot_real. unfold real_cosine.
  pose proof (real_dot_self_nonneg a) as Ha.
  pose proof (real_dot_self_nonneg b) as Hb.
  destruct (Req_dec_T (real_dot a a) 0) as [Za|Na].
  - rewrite Za, sqrt_0.
    replace (is_zero (Real 0)) with true by (symmetry; now apply is_zero_real).
    reflexivity.
  - assert (Hsa : 0 < R_sqrt.sqrt (real_dot a a)) by (apply sqrt_lt_R0; lra).
    replace (is_zero (Real (R_sqrt.sqrt (real_dot a a)))) with false.
    2:{ symmetry. apply not_true_is_false. rewrite is_zero_real. lra. }
    destruct (Req_dec_T (real_dot b b) 0) as [Zb|Nb].
    + rewrite Zb, sqrt_0.
      replace (is_zero (Real 0)) with true by (symmetry; now apply is_zero_real).
      reflexivity.
    + assert (Hsb : 0 < R_sqrt.sqrt (real_dot b b)) by (apply sqrt_lt_R0; lra).
      replace (is_zero (Real (R_sqrt.sqrt (real_dot b b)))) with false.
      2:{ symmetry. apply not_true_is_false. rewrite is_zero_real. lra. }
      cbn [orb div mul ideal_number ideal_div ideal_lift2].
      destruct (Req_dec_T (R_sqrt.sqrt (real_dot a a) * R_sqrt.sqrt (real_dot b b)) 0)
        as [Z|_]; [nra|reflexivity].
Qed.

(** The exact score lies between -1 and 1. *)
Lemma real_cosine_bounded (a b : list R) :
  length a = length b -> -1 <= real_cosine a b <= 1.
Proof.
  intros Hlen. unfold real_cosine.
  pose proof (real_dot_self_nonneg a) as Ha.
  pose proof (real_dot_self_nonneg b) as Hb.
  destruct (Req_dec_T (real_dot a a) 0) as [Za|Na]; [lra|].
  destruct (Req_dec_T (real_dot b b) 0) as [Zb|Nb]; [lra|].
  pose proof (real_dot_cauchy_schwarz a b Hlen) as CS.
  set (sa := R_sqrt.sqrt (real_dot a a)). set (sb := R_sqrt.sqrt (real_dot b b)).
  assert (Hsa : 0 < sa) by (apply sqrt_lt_R0; lra).
  assert (Hsb : 0 < sb) by (apply sqrt_lt_R0; lra).
  assert (Ea : sa * sa = real_dot a a) by (apply sqrt_sqrt; lra).
  assert (Eb : sb * sb = real_dot b b) by (apply sqrt_sqrt; lra).
  assert (Hpos : 0 < sa * sb) by nra.
  assert (Hsq : real_dot a b * real_dot a b <= (sa * sb) * (sa * sb)) by nra.
  assert (Habs : - (sa * sb) <= real_dot a b <= sa * sb).
  { split.
    - destruct (Rle_dec (- (sa * sb)) (real_dot a b)); [assumption|nra].
    - destruct (Rle_dec (real_dot a b) (sa * sb)); [assumption|nra]. }
  split.
  - apply Rmult_le_reg_r with (sa * sb); [exact Hpos|].
    unfold Rdiv. rewrite Rmult_assoc, Rinv_l by lra. lra.
  - apply Rmult_le_reg_r with (sa * sb); [exact Hpos|].
    unfold Rdiv. rewrite Rmult_assoc, Rinv_l by lra. lra.
Qed.


End ExactArithmetic.

(** The encoder on a pattern of real numbers. *)
Lemma div_real (a b : R) : b <> 0%R -> div (Real a) (Real b) = Real (a / b).
Proof.
  intros Hb. cbn [div ideal_number ideal_div].
  destruct (Req_dec_T b 0); [contradiction|reflexivity].
Qed.

Lemma or_zero_real (x : option R) :
  or_zero (option_map Real x) = Real (real_or_zero x).
Proof.
  destruct x as [v|]; [|reflexivity].
  cbn [option_map or_zero real_or_zero truthy ideal_number ideal_is_zero].
  destruct (Req_dec_T v 0) as [->|_]; reflexivity.
Qed.

Lemma patternToVector_real (p : Pattern.t R) :
  _patternToVector (real_pattern p) = map Real (real_vector p).
Proof.
  rewrite patternToVector_layout. unfold real_vector, one_hot, real_pattern.
  cbn [Pattern.price Pattern.volume Pattern.momentum Pattern.cash Pattern.positions
       Pattern.action].
  rewrite !or_zero_real.
  change lit1000 with (Real 1000). change lit10000 with (Real 10000).
  change lit100000 with (Real 100000).
  rewrite !div_real by lra.
  rewrite !map_app, map_repeat. cbn [map app].
  destruct (String.eqb (Pattern.action p) "buy"),
    (String.eqb (Pattern.action p) "sell"),
    (String.eqb (Pattern.action p) "hold"); reflexivity.
Qed.

Lemma real_vector_length (p : Pattern.t R) : length (real_vector p) = 128.
Proof. reflexivity. Qed.

Lemma Float32Array_from_real (l : list ideal) : Float32Array_from l = l.
Proof. unfold Float32Array_from. cbn [fround ideal_number]. apply map_id. Qed.

(** On real scores [ranks_before] is the order of the reals. *)
Lemma ranks_before_real (a b : R) : ranks_before (Real a) (Real b) = true <-> (b <= a)%R.
Proof.
  unfold ranks_before. cbn [sub gt_zero ideal_number ideal_lift2 ideal_gt_zero].
  destruct (Rlt_dec 0 (b - a)); cbn [negb]; split; intros; try discriminate;
    try reflexivity; lra.
Qed.

(** In exact arithmetic the comparator is consistent on every list of real
    scores. *)
Lemma consistent_real (l : list R) : consistent (map Real l) = true.
Proof.
  unfold consistent. apply forallb_forall. intros a Ha.
  apply forallb_forall. intros b Hb.
  apply in_map_iff in Ha. destruct Ha as (x & <- & _).
  apply in_map_iff in Hb. destruct Hb as (y & <- & _).
  apply andb_true_intro. split.
  - apply orb_true_intro.
    destruct (Rle_dec y x); [left|right]; apply ranks_before_real; lra.
  - apply forallb_forall. intros c Hc.
    apply in_map_iff in Hc. destruct Hc as (z & <- & _).
    destruct (ranks_before (Real x) (Real y)) eqn:Exy; [|reflexivity].
    destruct (ranks_before (Real y) (Real z)) eqn:Eyz; [|reflexivity].
    cbn [andb implb]. apply ranks_before_real.
    apply ranks_before_real in Exy. apply ranks_before_real in Eyz. lra.
Qed.

(** A store that was given real patterns holds real vectors of 128
    components, whatever its backend. *)
Lemma real_run (agentdb : option (AgentDB.module ideal)) (ops : list (@Op R)) :
  let m := run agentdb (map real_op ops) in
  Forall (fun vector => exists l, vector = map Real l /\ length l = 128) (vectors m).
Proof.
  induction ops as [|op ops IH] using rev_ind.
  - cbn zeta. unfold run. cbn [map fold_left].
    rewrite (proj1 (proj2 (initialize_invariant agentdb))).
    replace (patterns (_initialize agentdb)) with (@nil (Entry.t ideal)); [constructor|].
    unfold _initialize. destruct agentdb as [a|]; [|reflexivity].
    destruct (AgentDB.createDatabase a), (AgentDB.new_WASMVectorSearch a),
      (AgentDB.new_ReflexionMemory a), (AgentDB.new_SkillLibrary a),
      (AgentDB.new_CausalMemoryGraph a); reflexivity.
  - cbn zeta in *. rewrite map_app. cbn [map]. rewrite run_snoc.
    destruct (step_patterns (run agentdb (map real_op ops)) (real_op op))
      as [(cs & -> & _)|(now & p & o & Hop & ->)]; [exact IH|].
    destruct (storePattern_fields now p o (run agentdb (map real_op ops)))
      as (_ & _ & _ & _ & _ & _ & _ & Fvec & _).
    rewrite Fvec.
    apply Forall_app. split; [exact IH|].
    constructor; [|constructor].
    destruct op; try discriminate. injection Hop as _ <- _.
    exists (real_vector pattern).
    rewrite Float32Array_from_real, patternToVector_real. now split.
Qed.

(** A store whose import failed is never initialised. *)
Lemma run_without_import (ops : list (@Op ideal)) : _initialized (run None ops) = false.
Proof.
  induction ops as [|op ops IH] using rev_ind; [reflexivity|].
  rewrite run_snoc.
  destruct (step_patterns (run None ops) op)
    as [(cs & -> & _)|(now & p & o & _ & ->)]; [exact IH|].
  destruct (storePattern_fields now p o (run None ops))
    as (_ & _ & _ & _ & _ & _ & _ & _ & Finit & _).
  now rewrite Finit.
Qed.

(** When the scores come from the reference routine, those of a store that
    was given real patterns are real numbers between -1 and 1. *)
Lemma real_scores (agentdb : option (AgentDB.module ideal)) (ops : list (@Op R))
    (currentPattern : Pattern.t R) :
  let m := run agentdb (map real_op ops) in
  let q := Float32Array_from (_patternToVector (real_pattern currentPattern)) in
  reference_scores q m = true ->
  forall i, i < length (patterns m) ->
    exists r, read (similarities_of q m) i = Real r /\ (-1 <= r <= 1)%R.
Proof.
  cbn zeta. intros Href i Hi.
  pose proof (real_run agentdb ops) as Hreal. cbn zeta in *.
  destruct (run_invariant agentdb (map real_op ops)) as (_ & Hvec & _).
  destruct (nth_error (patterns (run agentdb (map real_op ops))) i) as [e|] eqn:He;
    [|apply nth_error_None in He; lia].
  rewrite (reference_scores_at _ _ Hvec Href i e He).
  assert (Hv : In (Float32Array_from (_patternToVector (Entry.pattern e)))
                  (vectors (run agentdb (map real_op ops)))).
  { rewrite Hvec. apply in_map_iff. exists e. split; [reflexivity|].
    eapply nth_error_In, He. }
  rewrite Forall_forall in Hreal. destruct (Hreal _ Hv) as (l & -> & Hl).
  rewrite Float32Array_from_real, patternToVector_real.
  assert (Hlen : length (real_vector currentPattern) = length l)
    by (rewrite Hl; reflexivity).
  rewrite (cosine_real _ _ Hlen). eexists. split; [reflexivity|].
  apply real_cosine_bounded, Hlen.
Qed.

Lemma reals_of_scores (l : list ideal) :
  Forall (fun x => exists r, x = Real r) l -> exists l', l = map Real l'.
Proof.
  induction 1 as [|x l [r ->] _ [l' ->]].
  - exists []. reflexivity.
  - exists (r :: l'). reflexivity.
Qed.

(** In exact arithmetic, on a store without backend whose patterns and
    outcomes are real numbers, the comparator is consistent on the scores
    of every query. *)
Lemma candidate_scores_consistent_exact (ops : list (@Op R)) (currentPattern : Pattern.t R) :
  let m := run None (map real_op ops) in
  let s := similarities_of (Float32Array_from (_patternToVector (real_pattern currentPattern))) m in
  consistent (candidate_scores s m) = true.
Proof.
  cbn zeta.
  destruct (reals_of_scores
              (candidate_scores
                 (similarities_of
                    (Float32Array_from (_patternToVector (real_pattern currentPattern)))
                    (run None (map real_op ops)))
                 (run None (map real_op ops)))) as [l' ->];
    [|apply consistent_real].
  apply Forall_forall. intros x Hx. unfold candidate_scores, candidates in Hx.
  apply in_map_iff in Hx. destruct Hx as ([i e] & <- & Hie).
  apply filter_In in Hie. destruct Hie as [Hie _].
  apply in_combine_l in Hie. apply in_seq in Hie. cbn [fst].
  destruct (real_scores None ops currentPattern) with (i := i) as (r & Hr & _);
    [unfold reference_scores; now rewrite run_without_import|lia|].
  exists r. exact Hr.
Qed.







(** ** The store and its backend *)

Section BackendFacts.
Context {num : Type} `{JSNumber num}.

(** The backend of a store is fixed when it is created. *)
Lemma storePattern_backend (now : Z) (pattern : Pattern.t num) (outcome : num)
    (m : @MemoryManager num) :
  let m' := snd (storePattern now pattern outcome m) in
  _initialized m' = _initialized m /\ db m' = db m
  /\ vectorSearch m' = vectorSearch m /\ reflexion m' = reflexion m
  /\ skillLibrary m' = skillLibrary m /\ causalGraph m' = causalGraph m.
Proof.
  unfold storePattern.
  destruct (_initialized m), (skillLibrary m), (gt_zero outcome); cbn;
    repeat split; reflexivity.
Qed.

Lemma run_backend (agentdb : option (AgentDB.module num)) (ops : list Op) :
  let m := run agentdb ops in
  let m0 := _initialize agentdb in
  _initialized m = _initialized m0 /\ db m = db m0
  /\ vectorSearch m = vectorSearch m0 /\ reflexion m = reflexion m0
  /\ skillLibrary m = skillLibrary m0 /\ causalGraph m = causalGraph m0.
Proof.
  induction ops as [|op ops IH] using rev_ind.
  - cbn. repeat split; reflexivity.
  - cbn zeta in *. rewrite run_snoc.
    destruct (step_patterns (run agentdb ops) op)
      as [(cs & -> & _)|(now & p & o & _ & ->)]; [exact IH|].
    destruct (storePattern_backend now p o (run agentdb ops))
      as (E1 & E2 & E3 & E4 & E5 & E6).
    destruct IH as (I1 & I2 & I3 & I4 & I5 & I6).
    rewrite E1, E2, E3, E4, E5, E6. repeat split; assumption.
Qed.

(** X1.  Initialisation is all or nothing.  After any sequence of
    operations the store is initialised exactly when the agentdb module was
    imported, opened its database and built all four components; an
    initialised store holds the database and all four components; and no
    operation changes the flag, the database or a component. *)
Theorem initialized_all_or_nothing (agentdb : option (AgentDB.module num))
    (ops : list Op) :
  let m := run agentdb ops in
  (_initialized m = true <->
   exists a vs rf sl cg,
     agentdb = Some a /\ AgentDB.createDatabase a = true
     /\ AgentDB.new_WASMVectorSearch a = Some vs
     /\ AgentDB.new_ReflexionMemory a = Some rf
     /\ AgentDB.new_SkillLibrary a = Some sl
     /\ AgentDB.new_CausalMemoryGraph a = Some cg)
  /\ (_initialized m = true ->
      db m = true /\ vectorSearch m <> None /\ reflexion m <> None
      /\ skillLibrary m <> None /\ causalGraph m <> None)
  /\ (forall op, let m' := run agentdb (ops ++ [op]) in
        _initialized m' = _initialized m /\ db m' = db m
        /\ vectorSearch m' = vectorSearch m /\ reflexion m' = reflexion m
        /\ skillLibrary m' = skillLibrary m /\ causalGraph m' = causalGraph m).
Proof.
  cbn zeta.
  destruct (run_backend agentdb ops) as (I1 & I2 & I3 & I4 & I5 & I6). cbn zeta in *.
  split; [|split].
  - rewrite I1. unfold _initialize.
    destruct agentdb as [a|].
    + destruct (AgentDB.createDatabase a) eqn:Edb;
        destruct (AgentDB.new_WASMVectorSearch a) as [vs|] eqn:Evs;
        destruct (AgentDB.new_ReflexionMemory a) as [rf|] eqn:Erf;
        destruct (AgentDB.new_SkillLibrary a) as [sl|] eqn:Esl;
        destruct (AgentDB.new_CausalMemoryGraph a) as [cg|] eqn:Ecg;
        cbn; split; try discriminate;
        try (intros (a' & vs' & rf' & sl' & cg' & Ea & Hdb & Hvs & Hrf & Hsl & Hcg);
             injection Ea as <-; congruence).
      intros _. exists a, vs, rf, sl, cg. repeat split; assumption.
    + cbn. split; [discriminate|].
      intros (a' & vs' & rf' & sl' & cg' & Ea & _). discriminate.
  - rewrite I1, I2, I3, I4, I5, I6. unfold _initialize.
    destruct agentdb as [a|]; [|discriminate].
    destruct (AgentDB.createDatabase a), (AgentDB.new_WASMVectorSearch a),
      (AgentDB.new_ReflexionMemory a), (AgentDB.new_SkillLibrary a),
      (AgentDB.new_CausalMemoryGraph a); cbn; try discriminate.
    intros _. repeat split; discriminate.
  - intros op.
    destruct (run_backend agentdb (ops ++ [op])) as (J1 & J2 & J3 & J4 & J5 & J6).
    cbn zeta in *. rewrite I1, I2, I3, I4, I5, I6. repeat split; assumption.
Qed.

(** What one call of [storePattern] asks of the backend. *)
Lemma storePattern_calls (now : Z) (pattern : Pattern.t num) (outcome : num)
    (m : @MemoryManager num) :
  calls (snd (storePattern now pattern outcome m))
  = calls m
    ++ entry_calls m (nth_error (patterns m) (length (patterns m) - 1))
         (fst (storePattern now pattern outcome m)).
Proof.
  unfold storePattern, entry_calls, causal_backend, skill_call, episode_call, edge_call, present.
  remember (length (patterns m)) as n eqn:En.
  assert (Hlen : forall e : Entry.t num, length (patterns m ++ [e]) = S n)
    by (intros e; rewrite length_app; cbn; lia).
  assert (Hprev : forall e : Entry.t num,
            n <> 0 ->
            nth_error (patterns m ++ [e]) (S n - 2) = nth_error (patterns m) (n - 1)).
  { intros e Hn. rewrite nth_error_app1 by lia. reflexivity. }
  assert (Hnone : n = 0 -> nth_error (patterns m) (n - 1) = None).
  { intros ->. symmetry in En. apply length_zero_iff_nil in En. now rewrite En. }
  destruct n as [|k].
  - rewrite (Hnone eq_refl).
    destruct (_initialized m), (skillLibrary m), (gt_zero outcome),
      (reflexion m), (causalGraph m); cbn -[nth_error Nat.sub];
      rewrite ?Hlen; cbn -[nth_error Nat.sub];
      rewrite <- ?app_assoc, ?app_nil_r; reflexivity.
  - destruct (_initialized m), (skillLibrary m), (gt_zero outcome),
      (reflexion m), (causalGraph m); cbn -[nth_error Nat.sub];
      rewrite ?Hlen; cbn -[nth_error Nat.sub];
      rewrite ?Hprev by discriminate;
      try destruct (nth_error (patterns m) (S k - 1));
      cbn -[nth_error Nat.sub];
      rewrite <- ?app_assoc, ?app_nil_r; reflexivity.
Qed.
End BackendFacts.

Section LogFacts.
Context {num : Type} `{JSNumber num}.

Lemma entry_calls_backend (m m' : @MemoryManager num) (prev : option (Entry.t num))
    (e : Entry.t num) :
  _initialized m' = _initialized m -> reflexion m' = reflexion m ->
  skillLibrary m' = skillLibrary m -> causalGraph m' = causalGraph m ->
  entry_calls m' prev e = entry_calls m prev e.
Proof.
  intros E1 E2 E3 E4. unfold entry_calls, causal_backend. now rewrite E1, E2, E3, E4.
Qed.

Lemma backend_log_backend (m m' : @MemoryManager num) (es : list (Entry.t num)) :
  _initialized m' = _initialized m -> reflexion m' = reflexion m ->
  skillLibrary m' = skillLibrary m -> causalGraph m' = causalGraph m ->
  forall prev, backend_log m' prev es = backend_log m prev es.
Proof.
  intros E1 E2 E3 E4. induction es as [|e es IH]; intros prev; [reflexivity|].
  cbn [backend_log]. now rewrite IH, (entry_calls_backend m m' prev e E1 E2 E3 E4).
Qed.

Lemma backend_log_snoc (m : @MemoryManager num) (es : list (Entry.t num))
    (e : Entry.t num) :
  forall prev,
    backend_log m prev (es ++ [e])
    = backend_log m prev es
      ++ entry_calls m
           (match nth_error es (length es - 1) with Some p => Some p | None => prev end) e.
Proof.
  induction es as [|a es IH]; intros prev.
  - cbn. now rewrite app_nil_r.
  - cbn [app backend_log]. rewrite IH, <- app_assoc. do 2 f_equal.
    cbn [length]. rewrite Nat.sub_succ, Nat.sub_0_r.
    destruct es as [|b es]; [reflexivity|].
    cbn [length nth_error]. rewrite Nat.sub_succ, Nat.sub_0_r.
    destruct (nth_error (b :: es) (length es)) eqn:E; [reflexivity|].
    apply nth_error_None in E. cbn in E. lia.
Qed.

(** The calls of an entry all record something. *)
Lemma entry_calls_record (m : @MemoryManager num) (prev : option (Entry.t num))
    (e : Entry.t num) :
  filter (fun c => AgentDB.records c) (entry_calls m prev e) = entry_calls m prev e.
Proof.
  unfold entry_calls.
  destruct (_initialized m && present (skillLibrary m) && Entry.success e),
    (_initialized m && present (reflexion m)), prev as [p|];
    try destruct (causal_backend m); reflexivity.
Qed.

Lemma queries_record_nothing (cs : list (AgentDB.call num)) :
  forallb (fun c => negb (AgentDB.records c)) cs = true ->
  filter (fun c => AgentDB.records c) cs = [].
Proof.
  induction cs as [|c cs IH]; [reflexivity|].
  cbn [forallb filter]. intros E. apply andb_prop in E. destruct E as [Ec Ecs].
  destruct (AgentDB.records c); [discriminate Ec|apply IH, Ecs].
Qed.

Lemma run_log (agentdb : option (AgentDB.module num)) (ops : list Op) :
  filter (fun c => AgentDB.records c) (calls (run agentdb ops))
  = backend_log (run agentdb ops) None (patterns (run agentdb ops)).
Proof.
  induction ops as [|op ops IH] using rev_ind.
  - unfold run. cbn [fold_left]. unfold _initialize.
    destruct agentdb as [a|]; [|reflexivity].
    destruct (AgentDB.createDatabase a), (AgentDB.new_WASMVectorSearch a),
      (AgentDB.new_ReflexionMemory a), (AgentDB.new_SkillLibrary a),
      (AgentDB.new_CausalMemoryGraph a); reflexivity.
  - rewrite run_snoc.
    destruct (step_patterns (run agentdb ops) op)
      as [(cs & -> & Hcs)|(now & p & o & _ & ->)].
    + unfold log at 1. cbn [calls].
      rewrite filter_app, (queries_record_nothing cs Hcs), app_nil_r, IH.
      symmetry. apply (backend_log_backend (run agentdb ops)); reflexivity.
    + set (m := run agentdb ops) in *.
      destruct (storePattern_backend now p o m) as (E1 & _ & _ & E4 & E5 & E6).
      destruct (storePattern_fields now p o m)
        as (_ & _ & _ & _ & _ & _ & Fpat & _).
      cbn zeta in *.
      rewrite storePattern_calls, filter_app, entry_calls_record, Fpat,
        backend_log_snoc, IH.
      rewrite (backend_log_backend m _ (patterns m) E1 E4 E5 E6).
      rewrite (entry_calls_backend m _ _ _ E1 E4 E5 E6).
      f_equal. destruct (nth_error (patterns m) (length (patterns m) - 1)); reflexivity.
Qed.

(** X2.  After any sequence of operations, the calls in the store's log that
    record something in the backend ([createSkill], [storeEpisode],
    [addCausalEdge]) are those of its entries, entry by entry in order of
    storage: [createSkill] when the skill library is there and the outcome
    is positive, then [storeEpisode] when the reflexion memory is there,
    then [addCausalEdge] from the entry before when there is one and the
    causal graph is there.  The queries and [close] add none: their calls
    ([batchSimilarity], [retrieveRelevant], [queryCausalEffects], the
    handle's [close]) are logged and record nothing. *)
Theorem backend_calls_per_entry (agentdb : option (AgentDB.module num)) (ops : list Op) :
  let m := run agentdb ops in
  filter (fun c => AgentDB.records c) (calls m) = backend_log m None (patterns m)
  /\ forall op,
       match op with StorePattern _ _ _ => False | _ => True end ->
       exists cs,
         calls (snd (step m op)) = calls m ++ cs
         /\ filter (fun c => AgentDB.records c) cs = [].
Proof.
  cbn zeta. split; [apply run_log|].
  intros op Hop.
  destruct (step_patterns (run agentdb ops) op)
    as [(cs & -> & Hcs)|(now & p & o & -> & _)]; [|destruct Hop].
  exists cs. split; [reflexivity|apply queries_record_nothing, Hcs].
Qed.

Lemma backend_log_uninitialized (m : @MemoryManager num) (es : list (Entry.t num)) :
  _initialized m = false -> forall prev, backend_log m prev es = [].
Proof.
  intros Hm. induction es as [|e es IH]; intros prev; [reflexivity|].
  cbn [backend_log]. rewrite IH. unfold entry_calls, causal_backend. rewrite Hm.
  destruct prev; reflexivity.
Qed.

Lemma storePattern_skillId (now : Z) (pattern : Pattern.t num) (outcome : num)
    (m : @MemoryManager num) :
  Entry.skillId (fst (storePattern now pattern outcome m)) <> None ->
  _initialized m = true /\ skillLibrary m <> None /\ gt_zero outcome = true.
Proof.
  unfold storePattern.
  destruct (_initialized m), (skillLibrary m), (gt_zero outcome); cbn;
    intros Hs; try (now contradiction Hs); repeat split; discriminate.
Qed.

Lemma run_skillId (agentdb : option (AgentDB.module num)) (ops : list Op) :
  let m := run agentdb ops in
  Forall (fun e => Entry.skillId e <> None ->
                   _initialized m = true /\ skillLibrary m <> None
                   /\ gt_zero (Entry.outcome e) = true) (patterns m).
Proof.
  induction ops as [|op ops IH] using rev_ind.
  - unfold run. cbn [fold_left]. unfold _initialize.
    destruct agentdb as [a|]; [|constructor].
    destruct (AgentDB.createDatabase a), (AgentDB.new_WASMVectorSearch a),
      (AgentDB.new_ReflexionMemory a), (AgentDB.new_SkillLibrary a),
      (AgentDB.new_CausalMemoryGraph a); constructor.
  - cbn zeta in *. rewrite run_snoc.
    destruct (step_patterns (run agentdb ops) op)
      as [(cs & -> & _)|(now & p & o & _ & ->)]; [exact IH|].
    set (m := run agentdb ops) in *.
    destruct (storePattern_backend now p o m) as (E1 & _ & _ & _ & E5 & _).
    destruct (storePattern_fields now p o m)
      as (_ & Fo & _ & _ & _ & _ & Fpat & _).
    cbn zeta in *. rewrite Fpat, E1, E5. apply Forall_app. split; [exact IH|].
    constructor; [|constructor]. rewrite Fo. apply storePattern_skillId.
Qed.

(** What an operation adds to the log of a store that is not initialised:
    nothing but the [close] of a database handle it holds. *)
Lemma step_uninitialized (m : @MemoryManager num) (op : Op) :
  _initialized m = false ->
  exists cs,
    calls (snd (step m op)) = calls m ++ cs
    /\ Forall (fun c => c = AgentDB.close_call num) cs
    /\ (db m = false -> cs = []).
Proof.
  intros Hm. destruct op; cbn [step snd].
  - exists []. repeat split; [|constructor].
    pose proof (storePattern_calls now pattern outcome m) as C.
    destruct (storePattern now pattern outcome m) as [entry m']. cbn [fst snd] in *.
    rewrite C. f_equal. unfold entry_calls, causal_backend. rewrite Hm.
    destruct (nth_error (patterns m) (length (patterns m) - 1)); reflexivity.
  - exists []. repeat split; [|constructor].
    unfold findSimilar_calls. rewrite Hm. destruct (Nat.eqb _ 0); reflexivity.
  - exists []. repeat split; [|constructor].
    unfold getSelfCritique_calls. rewrite Hm. reflexivity.
  - exists []. repeat split; [now rewrite app_nil_r|constructor].
  - exists []. repeat split; [|constructor].
    unfold getCausalReasoning_calls. rewrite Hm. destruct (Nat.eqb _ 0); reflexivity.
  - unfold close. destruct (db m).
    + destruct (handle m) as [d|];
        [|exists []; repeat split; [now rewrite app_nil_r|constructor]].
      destruct (AgentDB.close_method d);
        [|exists []; repeat split; [now rewrite app_nil_r|constructor]].
      exists [AgentDB.close_call num]. repeat split; [repeat constructor|discriminate].
    + exists []. repeat split; [now rewrite app_nil_r|constructor].
Qed.

Lemma run_uninitialized (agentdb : option (AgentDB.module num)) (ops : list Op) :
  _initialized (run agentdb ops) = false ->
  Forall (fun c => c = AgentDB.close_call num) (calls (run agentdb ops))
  /\ (db (run agentdb ops) = false -> calls (run agentdb ops) = []).
Proof.
  induction ops as [|op ops IH] using rev_ind; intros Hm.
  - unfold run. cbn [fold_left]. unfold _initialize.
    destruct agentdb as [a|]; [|split; [constructor|reflexivity]].
    destruct (AgentDB.createDatabase a), (AgentDB.new_WASMVectorSearch a),
      (AgentDB.new_ReflexionMemory a), (AgentDB.new_SkillLibrary a),
      (AgentDB.new_CausalMemoryGraph a); split; constructor.
  - destruct (run_backend agentdb (ops ++ [op])) as (J1 & J2 & _).
    destruct (run_backend agentdb ops) as (I1 & I2 & _). cbn zeta in *.
    assert (Hm' : _initialized (run agentdb ops) = false) by congruence.
    destruct (IH Hm') as [IHc IHd].
    rewrite run_snoc in *.
    destruct (step_uninitialized (run agentdb ops) op Hm') as (cs & -> & Hcs & Hdb).
    split.
    + apply Forall_app. split; assumption.
    + intros Hd. assert (Hd' : db (run agentdb ops) = false) by congruence.
      now rewrite (IHd Hd'), (Hdb Hd').
Qed.

(** X3.  A store whose initialisation failed never calls a component,
    whatever the operations: the only calls in its log are those [close()]
    makes on the database handle, which it holds when [createDatabase]
    returned before a constructor threw; without a handle the log is empty.
    None of its entries gets a [skillId]. *)
Theorem uninitialized_never_calls (agentdb : option (AgentDB.module num)) (ops : list Op) :
  let m := run agentdb ops in
  _initialized m = false ->
  Forall (fun c => c = AgentDB.close_call num) (calls m)
  /\ (db m = false -> calls m = [])
  /\ Forall (fun e => Entry.skillId e = None) (patterns m).
Proof.
  cbn zeta. intros Hm.
  destruct (run_uninitialized agentdb ops Hm) as [Hc Hd].
  split; [exact Hc|]. split; [exact Hd|].
  pose proof (run_skillId agentdb ops) as Hs. cbn zeta in Hs.
  eapply Forall_impl; [|exact Hs]. cbn. intros e He.
  destruct (Entry.skillId e) eqn:S; [|reflexivity].
  destruct He as (Hi & _); [discriminate|congruence].
Qed.

(** X4.  An entry has a [skillId] only if the store is initialised with a
    skill library and the entry's outcome is positive. *)
Theorem skillId_only_on_success (agentdb : option (AgentDB.module num)) (ops : list Op) :
  let m := run agentdb ops in
  Forall (fun e => Entry.skillId e <> None ->
                   _initialized m = true /\ skillLibrary m <> None
                   /\ gt_zero (Entry.outcome e) = true) (patterns m).
Proof. apply run_skillId. Qed.

Lemma run_app_patterns (agentdb : option (AgentDB.module num)) (ops ops' : list Op) :
  exists added,
    patterns (run agentdb (ops ++ ops')) = patterns (run agentdb ops) ++ added.
Proof.
  induction ops' as [|op ops' IH] using rev_ind.
  - exists []. now rewrite !app_nil_r.
  - destruct IH as [added IH]. rewrite app_assoc, run_snoc.
    destruct (step_patterns (run agentdb (ops ++ ops')) op)
      as [(cs & -> & _)|(now & p & o & _ & ->)]; [now exists added|].
    destruct (storePattern_fields now p o (run agentdb (ops ++ ops')))
      as (_ & _ & _ & _ & _ & _ & Fpat & _).
    cbn zeta in Fpat. rewrite Fpat, IH, <- app_assoc. eexists. reflexivity.
Qed.

Lemma run_stored_arguments (agentdb : option (AgentDB.module num)) (ops : list Op) :
  map (fun e => (Entry.pattern e, Entry.outcome e, Entry.timestamp e))
      (patterns (run agentdb ops))
  = stored_arguments ops.
Proof.
  induction ops as [|op ops IH] using rev_ind.
  - unfold run. cbn [fold_left]. unfold _initialize.
    destruct agentdb as [a|]; [|reflexivity].
    destruct (AgentDB.createDatabase a), (AgentDB.new_WASMVectorSearch a),
      (AgentDB.new_ReflexionMemory a), (AgentDB.new_SkillLibrary a),
      (AgentDB.new_CausalMemoryGraph a); reflexivity.
  - rewrite run_snoc. unfold stored_arguments in *. rewrite flat_map_app.
    cbn [flat_map]. rewrite app_nil_r, <- IH.
    destruct op; cbn [step snd log patterns]; rewrite ?app_nil_r; try reflexivity;
      [|destruct (step_patterns (run agentdb ops) Close)
          as [(cs & E & _)|(now & p & o & E & _)];
        [cbn [step] in E; rewrite E; reflexivity|discriminate E]].
    destruct (storePattern_fields now pattern outcome (run agentdb ops))
      as (Fp & Fo & Ft & _ & _ & _ & Fpat & _).
    cbn zeta in *.
    destruct (storePattern now pattern outcome (run agentdb ops)) as [entry m'] eqn:S.
    cbn [fst snd] in *. rewrite Fpat, map_app. cbn [map]. now rewrite Fp, Fo, Ft.
Qed.

(** X5.  The entries of the store are the [storePattern] calls made so
    far, in order, each with the pattern, the outcome and the time of its
    call: no query, and no [close], adds, drops or reorders an entry. *)
Theorem entries_are_store_calls (agentdb : option (AgentDB.module num)) (ops : list Op) :
  let m := run agentdb ops in
  map (fun e => (Entry.pattern e, Entry.outcome e, Entry.timestamp e)) (patterns m)
  = stored_arguments ops
  /\ length (patterns m) = length (stored_arguments ops).
Proof.
  cbn zeta. split; [apply run_stored_arguments|].
  rewrite <- (run_stored_arguments agentdb ops). now rewrite length_map.
Qed.

(** X6.  The entry [storePattern] returns is found at the position of its
    [id] after any further operations, unchanged; its [id] is the number of
    [storePattern] calls made before it. *)
Theorem stored_entry_found (agentdb : option (AgentDB.module num)) (ops ops' : list Op)
    (now : Z) (pattern : Pattern.t num) (outcome : num) :
  let entry := fst (storePattern now pattern outcome (run agentdb ops)) in
  let later := run agentdb (ops ++ StorePattern now pattern outcome :: ops') in
  nth_error (patterns later) (Entry.id entry) = Some entry
  /\ Entry.id entry = length (stored_arguments ops)
  /\ Entry.pattern entry = pattern
  /\ Entry.outcome entry = outcome
  /\ Entry.timestamp entry = now
  /\ Entry.success entry = gt_zero outcome.
Proof.
  cbn zeta.
  destruct (storePattern_fields now pattern outcome (run agentdb ops))
    as (Fp & Fo & Ft & Fs & _ & Fi & Fpat & _).
  cbn zeta in *.
  split; [|repeat split; try assumption].
  - change (ops ++ StorePattern now pattern outcome :: ops')
      with (ops ++ [StorePattern now pattern outcome] ++ ops').
    rewrite app_assoc.
    destruct (run_app_patterns agentdb (ops ++ [StorePattern now pattern outcome]) ops')
      as [added ->].
    rewrite run_snoc. cbn [step].
    destruct (storePattern now pattern outcome (run agentdb ops)) as [entry m'] eqn:S.
    cbn [fst snd] in *. rewrite Fpat, Fi.
    rewrite nth_error_app1 by (rewrite length_app; cbn; lia).
    rewrite nth_error_app2 by lia. now rewrite Nat.sub_diag.
  - rewrite Fi, <- (run_stored_arguments agentdb ops). now rewrite length_map.
Qed.
End LogFacts.

(** ** The queries *)

Section QueryFacts.
Context {num : Type} `{JSNumber num}.

Lemma candidates_entries (m : @MemoryManager num) :
  map snd (candidates m) = filter (fun e => Entry.success e) (patterns m).
Proof.
  unfold candidates. generalize 0. induction (patterns m) as [|e es IH]; intros start;
    [reflexivity|].
  cbn [length seq combine filter snd]. destruct (Entry.success e); cbn [map snd];
    now rewrite IH.
Qed.

(** X7.  Whatever the scores are (NaN included, and whatever the vector
    search of the backend answers), [findSimilar] returns the first k
    entries (5 by default) of a reordering of the successful entries, each
    once, with the pattern, outcome, timestamp and success flag of its entry;
    so it returns min(k, number of successes) results, the number of
    successes being the length of [getSkills()]. *)
Theorem findSimilar_first_k (agentdb : option (AgentDB.module num)) (ops : list Op)
    (currentPattern : Pattern.t num) (k : option nat) :
  let m := run agentdb ops in
  let limit := match k with Some k => k | None => 5 end in
  (exists ordering : list (Entry.t num),
     Permutation ordering (filter (fun e => Entry.success e) (patterns m))
     /\ map result_entry (findSimilar currentPattern k m)
        = map entry_kept (firstn limit ordering))
  /\ length (findSimilar currentPattern k m) = Nat.min limit (length (getSkills m)).
Proof.
  cbn zeta.
  destruct (run_invariant agentdb ops) as (_ & Hvec & _).
  set (m := run agentdb ops) in *.
  set (limit := match k with Some k => k | None => 5 end).
  set (s := similarities_of (Float32Array_from (_patternToVector currentPattern)) m).
  assert (Hex : exists ordering : list (Entry.t num),
     Permutation ordering (filter (fun e => Entry.success e) (patterns m))
     /\ map result_entry (findSimilar currentPattern k m)
        = map entry_kept (firstn limit ordering)).
  { destruct (vectors m) as [|v vs] eqn:V.
    - exists []. unfold findSimilar. rewrite V. cbn [length Nat.eqb map].
      symmetry in Hvec. apply map_eq_nil in Hvec. rewrite Hvec, firstn_nil.
      split; constructor.
    - exists (map snd (sort (fun a b => by_similarity (result_of s a) (result_of s b))
                        (candidates m))).
      split.
      + rewrite <- candidates_entries. apply Permutation_map, Permutation_sym,
          sort_permutation.
      + rewrite (findSimilar_selected currentPattern k m) by (rewrite V; discriminate).
        fold s limit. unfold selected. rewrite firstn_map, !map_map. reflexivity. }
  split; [exact Hex|].
  destruct Hex as (ordering & Hperm & Hmap).
  rewrite <- (length_map result_entry), Hmap, length_map, length_firstn.
  unfold getSkills. rewrite length_map, (Permutation_length Hperm). reflexivity.
Qed.

Lemma last_position_filter (action : string) (es : list (Entry.t num)) :
  forall start,
    map (fun e => Entry.id e) es = seq start (length es) ->
    let matching := filter (fun p => String.eqb (Entry.action p) action) es in
    match last_position action start es with
    | None => matching = []
    | Some i => exists e, nth_error matching (length matching - 1) = Some e
                          /\ Entry.id e = i
    end.
Proof.
  induction es as [|e es IH]; intros start Hids; [reflexivity|].
  cbn [map length seq] in Hids. injection Hids as Hid Hrest.
  specialize (IH (S start) Hrest). cbn zeta in *.
  cbn [last_position filter].
  destruct (last_position action (S start) es) as [i|].
  - destruct IH as (l & Hl & Hi). exists l. split; [|exact Hi].
    destruct (String.eqb (Entry.action e) action); [|exact Hl].
    destruct (filter (fun p => String.eqb (Entry.action p) action) es) as [|x xs];
      [destruct (length (@nil (Entry.t num)) - 1); discriminate|].
    cbn [length] in *. rewrite Nat.sub_succ, Nat.sub_0_r in *. exact Hl.
  - rewrite IH. destruct (String.eqb (Entry.action e) action); [|reflexivity].
    exists e. split; [reflexivity|exact Hid].
Qed.

(** X8.  [getCausalReasoning(action)] answers "No patterns found" when no
    entry has the action; otherwise, on an initialised store with a causal
    graph, it asks the graph for the effects of the last entry stored with
    that action, by its id, and reports their number (none when the graph
    answers nothing, an error text when the query throws); without the
    backend it reports that causal reasoning is not available. *)
Theorem getCausalReasoning_last_match (agentdb : option (AgentDB.module num))
    (ops : list Op) (action : string) :
  let m := run agentdb ops in
  getCausalReasoning action m
  = match last_position action 0 (patterns m) with
    | None => Reasoning.mk action [] "No patterns found for this action"
    | Some i =>
        match _initialized m, causalGraph m with
        | true, Some cg =>
            match AgentDB.queryCausalEffects cg (calls m) i with
            | Some effects =>
                let effects := match effects with Some e => e | None => [] end in
                Reasoning.mk action effects
                  ("Found " ++ string_of_nat (length effects)
                     ++ " causal relationships for action: " ++ action)%string
            | None => Reasoning.mk action [] "Error querying causal effects"
            end
        | _, _ =>
            Reasoning.mk action []
              "Causal reasoning not available (AgentDB not initialized)"
        end
    end.
Proof.
  cbn zeta. destruct (run_invariant agentdb ops) as (Hids & _).
  pose proof (last_position_filter action (patterns (run agentdb ops)) 0 Hids) as L.
  cbn zeta in L. unfold getCausalReasoning.
  destruct (last_position action 0 (patterns (run agentdb ops))) as [i|].
  - destruct L as (l & Hl & Hi).
    destruct (filter (fun p => String.eqb (Entry.action p) action)
                (patterns (run agentdb ops))) as [|x xs] eqn:F;
      [destruct (length (@nil (Entry.t num)) - 1); discriminate|].
    cbn [length Nat.eqb].
    destruct (_initialized (run agentdb ops)); [|reflexivity].
    destruct (causalGraph (run agentdb ops)) as [cg|]; [|reflexivity].
    cbn [length] in Hl. rewrite Hl, Hi.
    replace (if Nat.eqb i 0 then 0 else i) with i
      by (destruct i; reflexivity).
    reflexivity.
  - rewrite L. reflexivity.
Qed.

(** X9.  On a store whose initialisation failed, [getSelfCritique] returns
    no episode and says so with the task type (the action of the first step
    of the trajectory, or "unknown"), [getCausalReasoning] returns no causal
    path, and the scores of [findSimilar] are those of the reference cosine
    routine. *)
Theorem uninitialized_queries (agentdb : option (AgentDB.module num)) (ops : list Op)
    (trajectory : list (Pattern.t num)) (action : string) (currentPattern : Pattern.t num) :
  let m := run agentdb ops in
  _initialized (_initialize agentdb) = false ->
  getSelfCritique trajectory m
  = Critique.mk []
      ("No episodes found for " ++ task_type trajectory ++ " (AgentDB not initialized)")%string
  /\ Reasoning.causalPaths (getCausalReasoning action m) = []
  /\ similarities_of (Float32Array_from (_patternToVector currentPattern)) m
     = _manualCosineSimilarity (Float32Array_from (_patternToVector currentPattern))
         (vectors m).
Proof.
  cbn zeta. intros H0.
  destruct (run_backend agentdb ops) as (I1 & _). cbn zeta in I1. rewrite H0 in I1.
  split; [|split].
  - unfold getSelfCritique, task_type. rewrite I1. reflexivity.
  - unfold getCausalReasoning. rewrite I1.
    destruct (Nat.eqb _ 0); reflexivity.
  - unfold similarities_of. rewrite I1. reflexivity.
Qed.
End QueryFacts.

(** ** Laws of binary64 and of exact arithmetic *)

Lemma SFmul_comm (prec emax : Z) (x y : spec_float) :
  SFmul prec emax x y = SFmul prec emax y x.
Proof.
  destruct x as [sx|sx| |sx mx ex], y as [sy|sy| |sy my ey]; cbn [SFmul];
    rewrite ?(xorb_comm sx sy); try reflexivity.
  now rewrite (Pos.mul_comm mx my), (Z.add_comm ex ey).
Qed.

Lemma float_mul_comm (x y : float) : PrimFloat.mul x y = PrimFloat.mul y x.
Proof.
  apply Prim2SF_inj. rewrite !mul_spec. apply SFmul_comm.
Qed.

Lemma Prim2SF_nan : Prim2SF nan = S754_nan.
Proof. reflexivity. Qed.

Lemma float_add_nan_r (x : float) : PrimFloat.add x nan = nan.
Proof.
  apply Prim2SF_inj. rewrite add_spec, Prim2SF_nan.
  unfold SF64add. destruct (Prim2SF x); reflexivity.
Qed.
Lemma float_add_nan_l (x : float) : PrimFloat.add nan x = nan.
Proof.
  apply Prim2SF_inj. rewrite add_spec, Prim2SF_nan. reflexivity.
Qed.
Lemma float_mul_nan_l (x : float) : PrimFloat.mul nan x = nan.
Proof.
  apply Prim2SF_inj. rewrite mul_spec, Prim2SF_nan. reflexivity.
Qed.
Lemma float_div_nan_r (x : float) : PrimFloat.div x nan = nan.
Proof.
  apply Prim2SF_inj. rewrite div_spec, Prim2SF_nan.
  unfold SF64div. destruct (Prim2SF x); reflexivity.
Qed.
Lemma float_div_nan_l (x : float) : PrimFloat.div nan x = nan.
Proof.
  apply Prim2SF_inj. rewrite div_spec, Prim2SF_nan. reflexivity.
Qed.

Lemma float_mul_nan_r (x : float) : PrimFloat.mul x nan = nan.
Proof.
  apply Prim2SF_inj. rewrite mul_spec, Prim2SF_nan.
  unfold SF64mul. destruct (Prim2SF x); reflexivity.
Qed.

#[export] Instance float_mul_commutative : @MulCommutative float float_number.
Proof. exact float_mul_comm. Qed.

#[export] Instance float_nan_laws : @NaNLaws float float_number.
Proof.
  split; cbn [add mul div sqrt is_zero fround undef float_number].
  - apply float_add_nan_l.
  - apply float_add_nan_r.
  - apply float_mul_nan_l.
  - apply float_mul_nan_r.
  - apply float_div_nan_l.
  - apply float_div_nan_r.
  - reflexivity.
  - reflexivity.
  - reflexivity.
Qed.

#[export] Instance ideal_mul_commutative : @MulCommutative ideal ideal_number.
Proof.
  intros [|x] [|y]; cbn [mul ideal_number ideal_lift2]; try reflexivity.
  f_equal. apply Rmult_comm.
Qed.

#[export] Instance ideal_nan_laws : @NaNLaws ideal ideal_number.
Proof.
  split; cbn [add mul div sqrt is_zero fround undef ideal_number ideal_lift2 ideal_div
              ideal_sqrt ideal_is_zero]; try reflexivity; intros [|x]; reflexivity.
Qed.

(** ** The reference cosine routine, further *)

Section CosineMore.
Context {num : Type} `{JSNumber num}.

Lemma dot_comm `{!MulCommutative} (a b : list num) : dot a b = dot b a.
Proof.
  unfold dot. generalize (lit0 : num).
  revert b. induction a as [|x a IH]; intros [|y b] acc; try reflexivity.
  cbn [combine fold_left fst snd]. rewrite (mul_comm x y). apply IH.
Qed.

(** X10.  The reference cosine routine is symmetric on vectors of one
    length, in every arithmetic whose multiplication is commutative
    (binary64 and exact arithmetic are). *)
Theorem cosine_symmetric `{!MulCommutative} (a b : list num) :
  length a = length b -> cosine a b = cosine b a.
Proof.
  intros Hlen.
  rewrite (cosine_unfold a b Hlen), (cosine_unfold b a (eq_sym Hlen)).
  rewrite (dot_comm a b), (mul_comm (magnitude a) (magnitude b)), orb_comm.
  reflexivity.
Qed.

Lemma fold_left_ext_in {A B : Type} (f g : A -> B -> A) (l : list B) :
  (forall acc i, In i l -> f acc i = g acc i) ->
  forall acc, fold_left f l acc = fold_left g l acc.
Proof.
  induction l as [|x l IH]; intros Hfg acc; [reflexivity|].
  cbn [fold_left]. rewrite (Hfg acc x (or_introl eq_refl)).
  apply IH. intros acc' i Hi. apply Hfg. now right.
Qed.

(** X11.  The loop of the reference routine runs over the indices of the
    query; components of the stored vector beyond the query's length are
    never read. *)
Theorem cosine_ignores_extra (q v extra : list num) :
  length q = length v -> cosine q (v ++ extra) = cosine q v.
Proof.
  intros Hlen. unfold cosine, cosine_loop.
  rewrite (fold_left_ext_in
             (fun acc i =>
                let '(dotProduct, queryMagnitude, vecMagnitude) := acc in
                (add dotProduct (mul (read q i) (read (v ++ extra) i)),
                 add queryMagnitude (mul (read q i) (read q i)),
                 add vecMagnitude (mul (read (v ++ extra) i) (read (v ++ extra) i))))
             (fun acc i =>
                let '(dotProduct, queryMagnitude, vecMagnitude) := acc in
                (add dotProduct (mul (read q i) (read v i)),
                 add queryMagnitude (mul (read q i) (read q i)),
                 add vecMagnitude (mul (read v i) (read v i))))); [reflexivity|].
  intros [[d qm] vm] i Hi. apply in_seq in Hi.
  unfold read. rewrite app_nth1 by lia. reflexivity.
Qed.

(** The accumulators of the loop, one by one. *)
Lemma cosine_loop_split (q v : list num) :
  forall (l : list nat) (d qm vm : num),
    fold_left
      (fun acc i =>
         let '(dotProduct, queryMagnitude, vecMagnitude) := acc in
         (add dotProduct (mul (read q i) (read v i)),
          add queryMagnitude (mul (read q i) (read q i)),
          add vecMagnitude (mul (read v i) (read v i))))
      l (d, qm, vm)
    = (fold_left (fun acc i => add acc (mul (read q i) (read v i))) l d,
       fold_left (fun acc i => add acc (mul (read q i) (read q i))) l qm,
       fold_left (fun acc i => add acc (mul (read v i) (read v i))) l vm).
Proof.
  induction l as [|i l IH]; intros d qm vm; [reflexivity|].
  cbn [fold_left]. apply IH.
Qed.

Lemma fold_undef `{!NaNLaws} (f : nat -> num) (l : list nat) :
  fold_left (fun acc i => add acc (f i)) l undef = undef.
Proof.
  induction l as [|i l IH]; [reflexivity|].
  cbn [fold_left]. now rewrite add_undef_l.
Qed.

Lemma fold_poisoned `{!NaNLaws} (f : nat -> num) (l : list nat) (i : nat) :
  In i l -> f i = undef ->
  forall acc, fold_left (fun acc i => add acc (f i)) l acc = undef.
Proof.
  intros Hi Hf. induction l as [|j l IH]; intros acc; [destruct Hi|].
  cbn [fold_left]. destruct Hi as [->|Hi].
  - rewrite Hf, add_undef_r. apply fold_undef.
  - now apply IH.
Qed.

(** X12.  If the stored vector reads as NaN or as undefined at an index
    of the query (a NaN component, or a vector shorter than the query), the
    score is NaN, unless the query has magnitude zero, in which case it is
    0. *)
Theorem cosine_poisoned `{!NaNLaws} (q v : list num) (i : nat) :
  i < length q -> read v i = undef ->
  cosine q v = if is_zero (magnitude q) then lit0 else undef.
Proof.
  intros Hi Hv. unfold cosine, cosine_loop.
  rewrite cosine_loop_split.
  assert (Hq : fold_left (fun acc i => add acc (mul (read q i) (read q i)))
                 (seq 0 (length q)) lit0 = dot q q).
  { pose proof (cosine_loop_dot q q eq_refl) as L. unfold cosine_loop in L.
    rewrite cosine_loop_split in L. now injection L. }
  rewrite Hq.
  rewrite (fold_poisoned (fun i => mul (read v i) (read v i)) (seq 0 (length q)) i)
    by (try (apply in_seq; lia); now rewrite Hv, mul_undef_l).
  fold (magnitude q). rewrite sqrt_undef, is_zero_undef, orb_false_r.
  destruct (is_zero (magnitude q)); [reflexivity|].
  rewrite mul_undef_r. apply div_undef_r.
Qed.
End CosineMore.

(** ** The encoding of the action *)

Section EncoderMore.
Context {num : Type} `{JSNumber num}.

Lemma action_slice (pattern : Pattern.t num) :
  skipn 5 (_patternToVector pattern) = one_hot (Pattern.action pattern) ++ repeat lit0 120.
Proof. rewrite patternToVector_layout. reflexivity. Qed.

(** X13.  Beyond the five numeric features, the encodings of two patterns
    agree exactly when the patterns have the same action or neither action is
    one of buy, sell and hold: the encoder tells the three known actions
    apart and conflates all others. *)
Theorem action_slice_injective `{!OneNotZero} (p1 p2 : Pattern.t num) :
  skipn 5 (_patternToVector p1) = skipn 5 (_patternToVector p2)
  <-> (Pattern.action p1 = Pattern.action p2
       \/ (~ In (Pattern.action p1) ["buy"; "sell"; "hold"]
           /\ ~ In (Pattern.action p2) ["buy"; "sell"; "hold"])).
Proof.
  rewrite !action_slice. unfold one_hot.
  pose proof one_not_zero as N.
  assert (N' : (lit0 : num) <> lit1) by (intros E; apply N; now symmetry).
  destruct (String.eqb_spec (Pattern.action p1) "buy") as [B1|B1];
  destruct (String.eqb_spec (Pattern.action p1) "sell") as [S1|S1];
  destruct (String.eqb_spec (Pattern.action p1) "hold") as [H1|H1];
  destruct (String.eqb_spec (Pattern.action p2) "buy") as [B2|B2];
  destruct (String.eqb_spec (Pattern.action p2) "sell") as [S2|S2];
  destruct (String.eqb_spec (Pattern.action p2) "hold") as [H2|H2];
  try congruence;
  (split;
   [ intros E; cbn [app] in E;
     try (injection E; intros; exfalso; congruence);
     first [ left; congruence
           | right; split; cbn [In]; intros [K|[K|[K|[]]]]; congruence ]
   | intros [E|[E1 E2]];
     [ try congruence
     | try reflexivity; exfalso;
       first [ apply E1; cbn [In]; rewrite ?B1, ?S1, ?H1; tauto
             | apply E2; cbn [In]; rewrite ?B2, ?S2, ?H2; tauto ] ] ]).
Qed.
End EncoderMore.

#[export] Instance float_one_not_zero : @OneNotZero float float_number.
Proof.
  intros E. apply (f_equal (fun x => PrimFloat.eqb x 0%float)) in E. discriminate E.
Qed.

#[export] Instance ideal_one_not_zero : @OneNotZero ideal ideal_number.
Proof. intros E. injection E as E. lra. Qed.

Section PoisonedStore.
Context {num : Type} `{JSNumber num}.

(** X14.  When the scores come from the reference routine, the score of
    an entry stored without a price is NaN for every query of non-zero
    magnitude (and 0 otherwise): the store accepts the pattern and poisons its
    score. *)
Theorem missing_price_score `{!NaNLaws} (agentdb : option (AgentDB.module num))
    (ops : list Op) (currentPattern : Pattern.t num) (i : nat) (e : Entry.t num) :
  let m := run agentdb ops in
  let queryVector := Float32Array_from (_patternToVector currentPattern) in
  _initialized m = false \/ vectorSearch m = None ->
  nth_error (patterns m) i = Some e ->
  Pattern.price (Entry.pattern e) = undef ->
  read (similarities_of queryVector m) i
  = if is_zero (magnitude queryVector) then lit0 else undef.
Proof.
  cbn zeta. intros Hfb He Hprice.
  destruct (run_invariant agentdb ops) as (_ & Hvec & _).
  rewrite (fallback_scores _ _ Hvec Hfb i e He).
  apply (cosine_poisoned _ _ 0).
  - unfold Float32Array_from. rewrite length_map, patternToVector_length. lia.
  - rewrite patternToVector_layout, Hprice, div_undef_l. cbn. apply fround_undef.
Qed.
End PoisonedStore.

Lemma missing_price_score_witness :
  let m := run None [StorePattern 1%Z buy_1000 10%float; StorePattern 2%Z no_price 5%float] in
  (_initialized m = false \/ vectorSearch m = None)
  /\ Pattern.price no_price = nan
  /\ read (similarities_of (Float32Array_from (_patternToVector buy_1000)) m) 1 = nan.
Proof.
  cbn zeta. split; [left; reflexivity|]. split; [reflexivity|].
  rewrite (@missing_price_score float float_number float_nan_laws None
             [StorePattern 1%Z buy_1000 10%float; StorePattern 2%Z no_price 5%float]
             buy_1000 1
             (fst (storePattern 2%Z no_price 5%float
                     (run None [StorePattern 1%Z buy_1000 10%float])))
             (or_introl eq_refl) eq_refl eq_refl).
  reflexivity.
Defined.

Lemma cosine_symmetric_witness :
  length [3; 4]%float = length [1; 2]%float
  /\ cosine [3; 4]%float [1; 2]%float = cosine [1; 2]%float [3; 4]%float.
Proof.
  split; [reflexivity|].
  exact (@cosine_symmetric float float_number float_mul_commutative
           [3; 4]%float [1; 2]%float eq_refl).
Defined.

Lemma cosine_ignores_extra_witness :
  length [3; 4]%float = length [1; 2]%float
  /\ cosine [3; 4]%float ([1; 2] ++ [7; 8; 9])%float = cosine [3; 4]%float [1; 2]%float.
Proof.
  split; [reflexivity|].
  exact (@cosine_ignores_extra float float_number [3; 4]%float [1; 2]%float
           [7; 8; 9]%float eq_refl).
Defined.

Lemma cosine_poisoned_witness :
  1 < length [3; 4]%float
  /\ read [1%float] 1 = nan
  /\ cosine [3; 4]%float [1%float] = nan.
Proof.
  split; [repeat constructor|]. split; [reflexivity|].
  rewrite (@cosine_poisoned float float_number float_nan_laws
             [3; 4]%float [1%float] 1 (le_n 2) eq_refl).
  reflexivity.
Defined.

Lemma uninitialized_never_calls_witness :
  let m := run (Some half_initialized)
             (three_stored ++ [FindSimilar buy_1000 None; GetCausalReasoning "buy"; Close]) in
  _initialized m = false
  /\ calls m = [AgentDB.close_call float]
  /\ Forall (fun c => c = AgentDB.close_call float) (calls m).
Proof.
  split; [reflexivity|]. split; [reflexivity|].
  exact (proj1 (@uninitialized_never_calls float float_number (Some half_initialized)
                  (three_stored ++ [FindSimilar buy_1000 None; GetCausalReasoning "buy"; Close])
                  eq_refl)).
Defined.

Lemma uninitialized_queries_witness :
  _initialized (@_initialize float None) = false
  /\ Reasoning.causalPaths (getCausalReasoning "buy" (run None three_stored)) = [].
Proof.
  split; [reflexivity|].
  exact (proj1 (proj2 (@uninitialized_queries float float_number None three_stored
                         [] "buy" buy_1000 eq_refl))).
Defined.

Lemma action_slice_injective_witness :
  skipn 5 (_patternToVector buy_1000) = skipn 5 (_patternToVector buy_500)
  <-> (Pattern.action buy_1000 = Pattern.action buy_500
       \/ (~ In (Pattern.action buy_1000) ["buy"; "sell"; "hold"]
           /\ ~ In (Pattern.action buy_500) ["buy"; "sell"; "hold"])).
Proof.
  exact (@action_slice_injective float float_number float_one_not_zero buy_1000 buy_500).
Defined.

(** ** The StrategyVerifier class *)

Section VerifierFacts.
Context {num : Type} `{JSNumber num} `{JSMath num}.

Lemma verifyWithSimulation_proofs (now : Z) (metrics : Metrics.t num)
    (s : StrategyVerifier) :
  let s' := snd (_verifyWithSimulation now metrics s) in
  exists record,
    proofs s' = proofs s ++ [record]
    /\ ProofRecord.timestamp record = now
    /\ ProofRecord.metrics record = metrics
    /\ ProofRecord.signature record = None
    /\ ProofRecord.leanProof record = None
    /\ theorem_name (ProofRecord.theorem record) = "strategy_safety"
    /\ forallb valid_of (values (ProofRecord.proofs record)) = false
    /\ ProofRecord.verificationTime record = lit0.
Proof.
  cbn. eexists. split; [reflexivity|]. cbn. repeat split; reflexivity.
Qed.

Lemma verifyWithSimulation_frame (now : Z) (metrics : Metrics.t num)
    (s : StrategyVerifier) :
  let s' := snd (_verifyWithSimulation now metrics s) in
  rules s' = rules s /\ lean s' = lean s /\ leanAvailable s' = leanAvailable s
  /\ memory s' = memory s.
Proof. cbn. repeat split; reflexivity. Qed.

Lemma simulate_snoc (vs : list (Z * Metrics.t num)) (v : Z * Metrics.t num)
    (s : StrategyVerifier) :
  simulate (vs ++ [v]) s = snd (_verifyWithSimulation (fst v) (snd v) (simulate vs s)).
Proof. unfold simulate. rewrite fold_left_app. reflexivity. Qed.

Lemma simulate_frame (vs : list (Z * Metrics.t num)) (s : StrategyVerifier) :
  rules (simulate vs s) = rules s /\ lean (simulate vs s) = lean s
  /\ leanAvailable (simulate vs s) = leanAvailable s
  /\ memory (simulate vs s) = memory s.
Proof.
  revert s. induction vs as [|v vs IH]; intros s; [repeat split; reflexivity|].
  change (simulate (v :: vs) s)
    with (simulate vs (snd (_verifyWithSimulation (fst v) (snd v) s))).
  destruct (IH (snd (_verifyWithSimulation (fst v) (snd v) s))) as (-> & -> & -> & ->).
  repeat split; reflexivity.
Qed.

Lemma simulate_proofs (vs : list (Z * Metrics.t num)) (s : StrategyVerifier) :
  exists records,
    proofs (simulate vs s) = proofs s ++ records
    /\ length records = length vs
    /\ Forall (fun r => ProofRecord.signature r = None) records
    /\ getProofHistory (simulate vs s) = getProofHistory s ++ map simulated_entry vs.
Proof.
  induction vs as [|v vs IH] using rev_ind.
  - exists []. cbn. rewrite !app_nil_r. repeat split; constructor.
  - destruct IH as (records & Hp & Hl & Hs & Hh).
    rewrite simulate_snoc.
    exists (records ++ [ProofRecord.mk (fst v)
                          (Simulated "strategy_safety"
                             [("drawdown < ", Rules.maxDrawdown (rules (simulate vs s)));
                              ("risk_per_trade < ", Rules.riskPerTrade (rules (simulate vs s)));
                              ("win_rate > ", Rules.minWinRate (rules (simulate vs s)))]
                             "strategy_is_safe")
                          (Proofs.mk
                             (Plain (lt (Metrics.maxDrawdown (snd v)) (Rules.maxDrawdown (rules (simulate vs s)))))
                             (Plain (lt (Metrics.avgRisk (snd v)) (Rules.riskPerTrade (rules (simulate vs s)))))
                             (Plain (gt (Metrics.winRate (snd v)) (Rules.minWinRate (rules (simulate vs s))))))
                          (snd v) None None lit0]).
    split; [|split; [|split]].
    + cbn [_verifyWithSimulation snd proofs]. rewrite Hp, app_assoc. reflexivity.
    + rewrite !length_app, Hl. reflexivity.
    + apply Forall_app. split; [exact Hs|]. constructor; [reflexivity|constructor].
    + unfold getProofHistory at 1. cbn [_verifyWithSimulation snd proofs].
      rewrite map_app. fold (getProofHistory (simulate vs s)). rewrite Hh.
      rewrite map_app, app_assoc. reflexivity.
Qed.

(** X15.  The audit trail of verifications in simulation mode: each adds
    one entry to the history, named strategy_safety, without signature or
    Lean proof, and reported as not valid whatever its verdict was (its
    proofs are booleans, which have no property [valid]). *)
Theorem simulation_history (vs : list (Z * Metrics.t num)) (s : StrategyVerifier) :
  getProofHistory (simulate vs s) = getProofHistory s ++ map simulated_entry vs
  /\ Forall (fun e => HistoryEntry.valid e = false
                      /\ HistoryEntry.signature e = None
                      /\ HistoryEntry.hasLeanProof e = false)
            (map simulated_entry vs)
  /\ length (getProofHistory (simulate vs s)) = length (getProofHistory s) + length vs.
Proof.
  destruct (simulate_proofs vs s) as (records & _ & _ & _ & Hh).
  split; [exact Hh|]. split.
  - apply Forall_forall. intros e He. apply in_map_iff in He.
    destruct He as (v & <- & _). repeat split; reflexivity.
  - rewrite Hh, length_app, length_map. reflexivity.
Qed.

(** X16.  Verifications in simulation mode leave no signature to check:
    [verifySignature] answers as before on the earlier proofs, refuses each
    of the new ones for want of a signature, and finds no proof beyond. *)
Theorem simulation_signatures (vs : list (Z * Metrics.t num)) (s : StrategyVerifier)
    (proofIndex : nat) :
  verifySignature proofIndex (simulate vs s) =
    if Nat.ltb proofIndex (length (proofs s)) then verifySignature proofIndex s
    else if Nat.ltb proofIndex (length (proofs s) + length vs)
         then Refused "No signature available (simulation mode)"
         else Refused "Proof not found".
Proof.
  destruct (simulate_proofs vs s) as (records & Hp & Hl & Hs & _).
  destruct (simulate_frame vs s) as (_ & Hlean & _).
  unfold verifySignature. rewrite Hp, Hlean.
  destruct (Nat.ltb_spec proofIndex (length (proofs s))) as [Hlt|Hge].
  - rewrite nth_error_app1 by exact Hlt. reflexivity.
  - rewrite nth_error_app2 by exact Hge.
    destruct (Nat.ltb_spec proofIndex (length (proofs s) + length vs)) as [Hlt|Hge'].
    + destruct (nth_error records (proofIndex - length (proofs s))) as [r|] eqn:Hr.
      * rewrite Forall_forall in Hs. rewrite (Hs r (nth_error_In _ _ Hr)). reflexivity.
      * apply nth_error_None in Hr. lia.
    + replace (nth_error records (proofIndex - length (proofs s))) with (@None (ProofRecord.t num)).
      * reflexivity.
      * symmetry. apply nth_error_None. lia.
Qed.

End VerifierFacts.

Lemma float_lt_infinity (x : float) : PrimFloat.ltb PrimFloat.infinity x = false.
Proof.
  rewrite ltb_spec. change (Prim2SF PrimFloat.infinity) with (S754_infinity false).
  destruct (Prim2SF x) as [[|]|[|]| |[|] m e]; reflexivity.
Qed.

Lemma float_lt_nan (x : float) : PrimFloat.ltb nan x = false.
Proof. rewrite ltb_spec, Prim2SF_nan. reflexivity. Qed.

Lemma Math_min_nan (xs : list float) : fold_left float_min2 xs nan = nan.
Proof. induction xs as [|x xs IH]; [reflexivity|]. cbn [fold_left]. exact IH. Qed.

Lemma Math_min_no_outcome (data : list (Trade.t float)) (acc : float) :
  existsb no_outcome data = true ->
  fold_left float_min2 (map (fun t => Trade.outcome t) data) acc = nan.
Proof.
  revert acc. induction data as [|t data IH]; intros acc E; [discriminate E|].
  cbn [existsb] in E. cbn [map fold_left].
  destruct (no_outcome t) eqn:Ht.
  - unfold no_outcome in Ht. unfold float_min2 at 2. rewrite Ht, orb_true_r.
    apply Math_min_nan.
  - apply IH. exact E.
Qed.

(** [calculateMetrics] returns for a history within the engine's limit and
    throws beyond it. *)
Lemma calculateMetrics_cases (argument_limit : nat) (data : list (Trade.t float)) :
  (length data <= argument_limit ->
   calculateMetrics argument_limit data
   = Some (Metrics.mk
             (div (of_nat (length (filter (fun t => gt_zero (Trade.outcome t)) data)))
                  (add (of_nat (length (filter (fun t => gt_zero (Trade.outcome t)) data)))
                       (of_nat (length (filter (fun t => le (Trade.outcome t) lit0) data)))))
             (abs (div (fold_left min2 (map (fun t => Trade.outcome t) data) infinity)
                       lit100000))
             lit0_015
             (length data)))
  /\ (argument_limit < length data -> calculateMetrics argument_limit data = None).
Proof.
  unfold calculateMetrics, Math_min. rewrite length_map.
  destruct (Nat.leb_spec (length data) argument_limit); split; intros; try lia;
    reflexivity.
Qed.

(** X17.  A history that is empty, or in which some trade has no numeric
    outcome, is never found safe in simulation mode, whatever the rules:
    when the history is within the number of arguments the engine takes,
    [calculateMetrics] returns a maximal drawdown that is Infinity or NaN,
    which is below no bound, and the verdict is RISKY; when the history is
    longer, [calculateMetrics] throws and there is no verdict. *)
Theorem unusable_history_risky (argument_limit : nat) (now : Z)
    (data : list (Trade.t float)) (s : @StrategyVerifier float)
    (Hdata : data = [] \/ existsb no_outcome data = true) :
  (length data <= argument_limit ->
   exists metrics,
     calculateMetrics argument_limit data = Some metrics
     /\ let verdict := fst (_verifyWithSimulation now metrics s) in
        Verdict.valid verdict = false /\ Verdict.recommendation verdict = "RISKY")
  /\ (argument_limit < length data -> calculateMetrics argument_limit data = None).
Proof.
  destruct (calculateMetrics_cases argument_limit data) as [Hin Hout].
  split; [|exact Hout].
  intros Hlen. eexists. split; [exact (Hin Hlen)|].
  cbn [_verifyWithSimulation fst Verdict.valid Verdict.recommendation values forallb
       Proofs.drawdown Proofs.risk Proofs.winRate holds_of Metrics.maxDrawdown].
  match goal with
  | |- context [lt ?d ?bound] =>
      assert (E : lt d bound = false); [|rewrite E; split; reflexivity]
  end.
  destruct Hdata as [->|Hnan].
  - apply float_lt_infinity.
  - cbn [min2 float_math infinity]. rewrite (Math_min_no_outcome _ _ Hnan).
    cbn [div float_number]. rewrite float_div_nan_l. apply float_lt_nan.
Qed.

(** X18.  Under the constructor's rules the risk rule never rejects: for
    every history within the number of arguments the engine takes, the
    average risk of the metrics is the constant 0.015, below 0.02, so the
    verdict in simulation mode is decided by the drawdown and the win rate
    alone; for a longer history [calculateMetrics] throws and there is no
    verdict. *)
Theorem default_rules_verdict (argument_limit : nat) (now : Z)
    (data : list (Trade.t float)) (agentdb : option (AgentDB.module float)) :
  (length data <= argument_limit ->
   exists metrics,
     calculateMetrics argument_limit data = Some metrics
     /\ let verdict :=
          fst (_verifyWithSimulation now metrics (new_StrategyVerifier agentdb)) in
        Proofs.risk (Verdict.proofs verdict) = Plain true
        /\ Verdict.valid verdict =
             lt (Metrics.maxDrawdown metrics) lit0_25
             && gt (Metrics.winRate metrics) lit0_4)
  /\ (argument_limit < length data -> calculateMetrics argument_limit data = None).
Proof.
  destruct (calculateMetrics_cases argument_limit data) as [Hin Hout].
  split; [|exact Hout].
  intros Hlen. eexists. split; [exact (Hin Hlen)|].
  cbn [_verifyWithSimulation fst Verdict.valid Verdict.proofs values forallb
       Proofs.drawdown Proofs.risk Proofs.winRate holds_of new_StrategyVerifier rules
       Rules.maxDrawdown Rules.riskPerTrade Rules.minWinRate
       Metrics.avgRisk Metrics.maxDrawdown Metrics.winRate].
  change (lt lit0_015 lit0_02) with true.
  split; [reflexivity|]. cbn [andb]. rewrite andb_true_r. reflexivity.
Qed.

Lemma unusable_history_risky_witness :
  existsb no_outcome one_lost_record = true
  /\ length one_lost_record <= 100
  /\ exists metrics,
       calculateMetrics 100 one_lost_record = Some metrics
       /\ Verdict.recommendation
            (fst (_verifyWithSimulation 0 metrics (new_StrategyVerifier None))) = "RISKY".
Proof.
  split; [reflexivity|].
  assert (Hlen : length one_lost_record <= 100) by (cbn; lia).
  split; [exact Hlen|].
  destruct (proj1 (unusable_history_risky 100 0 one_lost_record
                     (new_StrategyVerifier None) (or_intror eq_refl)) Hlen)
    as (metrics & Hm & _ & Hr).
  exists metrics. split; [exact Hm|exact Hr].
Defined.
